(** * WebSocket fan-out service: connection directory and broadcast engine

    A shallow embedding of the WebSocket handlers of next-firebase-note-app:

    - [AwsSam]: infrastructure/aws-sam/websocket-handlers (connect.ts,
      disconnect.ts, default.ts, broadcast.ts and shared/utils.ts,
      shared/types.ts, shared/broadcast-service.ts), the deployed variant;
    - [Serverless]: infrastructure/serverless/src (the default, connect and
      disconnect handlers, the [broadcastToAll] HTTP endpoint and
      [normalizeManagementEndpoint] of utils.ts), the local variant.

    The handlers are async functions that talk to DynamoDB and to the API
    Gateway management API.  They are embedded in a promise monad over an
    explicit [World] (the connections table and the trace of commands sent to
    the two clients); the behaviour of the external services and of the
    JavaScript runtime (JSON.parse, JSON.stringify, the clock, randomUUID,
    which requests fail) is collected in a [Cloud] record. *)

From Stdlib Require Import String Ascii List ZArith Lia Bool Arith PeanoNat.
From Stdlib Require DecimalString.
Import ListNotations.
Local Open Scope string_scope.
Local Open Scope list_scope.

Set Implicit Arguments.

(* ================================================================== *)
(** * JavaScript values *)
(* ================================================================== *)

(** Values produced by [JSON.parse] and consumed by [JSON.stringify].
    Payload numbers are never computed with by the handlers, only tested
    for truthiness, so they are kept as integers. *)
#[warnings="-register-all"]
Inductive JSON : Type :=
| JNull
| JBool (b : bool)
| JNumber (n : Z)
| JString (s : string)
| JArray (items : list JSON)
| JObject (fields : list (string * JSON)).

(** A property read yields [undefined] ([None]) or a value. *)
Definition JSValue : Type := option JSON.

(** [!!v] on a parsed value: null, false, 0 and the empty string are falsy. *)
Definition truthy (v : JSON) : bool :=
  match v with
  | JNull => false
  | JBool b => b
  | JNumber n => negb (n =? 0)%Z
  | JString s => negb (s =? EmptyString)
  | JArray _ => true
  | JObject _ => true
  end.

(** [!!v] on a property read: [undefined] is falsy. *)
Definition truthyValue (v : JSValue) : bool :=
  match v with
  | None => false
  | Some j => truthy j
  end.

(** [s || d] and [!!s] on an optional string. *)
Definition truthyString (s : option string) : bool :=
  match s with
  | None => false
  | Some t => negb (t =? EmptyString)
  end.

Definition orElse (s : option string) (d : string) : string :=
  match s with
  | Some t => if t =? EmptyString then d else t
  | None => d
  end.

(** [a ?? d]: only [undefined] and [null] are replaced. *)
Definition nullish (v : JSValue) (d : JSON) : JSON :=
  match v with
  | None => d
  | Some JNull => d
  | Some j => j
  end.

(** A property of an object literal: a property whose value is [undefined]
    is dropped by [JSON.stringify]. *)
Definition property (k : string) (v : JSValue) : list (string * JSON) :=
  match v with
  | Some j => [(k, j)]
  | None => []
  end.

Fixpoint lookupField (k : string) (fields : list (string * JSON)) : JSValue :=
  match fields with
  | [] => None
  | (k', v) :: rest => if k' =? k then Some v else lookupField k rest
  end.

(** [haystack.includes(needle)]. *)
Fixpoint includes (haystack needle : string) : bool :=
  if String.prefix needle haystack then true
  else match haystack with
       | EmptyString => false
       | String _ rest => includes rest needle
       end.

(** A thrown value.  [instanceofError] is [error instanceof Error];
    [err_httpStatusCode] is [error.$metadata?.httpStatusCode] and
    [err_statusCode] is [error.statusCode]. *)
Record JSError : Type := {
  instanceofError : bool;
  err_message : string;
  err_httpStatusCode : option Z;
  err_statusCode : option Z
}.

Definition newError (msg : string) : JSError :=
  {| instanceofError := true; err_message := msg;
     err_httpStatusCode := None; err_statusCode := None |}.

(** [error instanceof Error ? error.message : 'Unknown error']. *)
Definition messageOf (e : JSError) : string :=
  if instanceofError e then err_message e else "Unknown error".

(** [error instanceof Error && error.message.includes('environment variable')]. *)
Definition isConfigurationError (e : JSError) : bool :=
  instanceofError e && includes (err_message e) "environment variable".

(* ================================================================== *)
(** * The world outside the handlers *)
(* ================================================================== *)

(** shared/types.ts *)
Record ConnectionItem : Type := {
  connectionId : string;
  timestamp : option Z;
  ttl : option Z
}.

Record LambdaResponse : Type := {
  statusCode : Z;
  headers : list (string * string);
  body : string
}.

Record EnvironmentConfig : Type := {
  AWS_REGION : string;
  DYNAMODB_CONNECTIONS_TABLE : string;
  WEBSOCKET_API_ENDPOINT : string;
  DYNAMODB_ENDPOINT : option string;
  LOG_LEVEL : option string;
  CORS_ORIGIN : option string
}.

(** [process.env], restricted to the variables the handlers read. *)
Record ProcessEnv : Type := {
  env_AWS_REGION : option string;
  env_DYNAMODB_CONNECTIONS_TABLE : option string;
  env_WEBSOCKET_API_ENDPOINT : option string;
  env_DYNAMODB_ENDPOINT : option string;
  env_LOG_LEVEL : option string;
  env_CORS_ORIGIN : option string
}.

(** The part of an [APIGatewayProxyEvent] the handlers read. *)
Record APIGatewayProxyEvent : Type := {
  event_body : option string;
  requestContext_connectionId : option string
}.

(** Commands sent through [dynamoClient.send] and [apiGatewayClient.send]. *)
Inductive Command : Type :=
| ScanCommand (TableName : string) (ExclusiveStartKey : option string)
| PutCommand (TableName : string) (Item : ConnectionItem)
| DeleteCommand (TableName : string) (Key : string)
| PostToConnectionCommand (ConnectionId : string) (Data : string).

Record ScanCommandOutput : Type := {
  Items : option (list ConnectionItem);
  LastEvaluatedKey : option string
}.

(** The connections table in storage order, the commands sent so far (oldest
    first) and the number of identifiers drawn from [randomUUID]. *)
Record World : Type := {
  table : list ConnectionItem;
  commands : list Command;
  uuidsDrawn : nat
}.

(** What the runtime and the two services answer.  A fault is the value the
    client's [send] rejects with; [None] means the request succeeds. *)
Record Cloud : Type := {
  process_env : ProcessEnv;
  JSON_parse : string -> JSError + JSON;
  JSON_stringify : JSON -> string;
  toISOString : string;
  Date_now : Z;
  randomUUID_at : nat -> string;
  scanPageLimit : nat;
  scanFault : option string -> option JSError;
  putFault : string -> option JSError;
  deleteFault : string -> option JSError;
  postFault : string -> option JSError
}.

(* ================================================================== *)
(** * Promises *)
(* ================================================================== *)

Inductive Settled (A : Type) : Type :=
| Fulfilled (value : A)
| Rejected (reason : JSError).

Arguments Fulfilled {A} value.
Arguments Rejected {A} reason.

(** An async computation: it changes the world and settles, or stays pending
    ([None]).  Effects made before a rejection are kept. *)
Definition Promise (A : Type) : Type := World -> option (Settled A) * World.

Definition resolve {A : Type} (a : A) : Promise A :=
  fun w => (Some (Fulfilled a), w).

Definition throw {A : Type} (e : JSError) : Promise A :=
  fun w => (Some (Rejected e), w).

Definition pending {A : Type} : Promise A :=
  fun w => (None, w).

Definition await {A B : Type} (p : Promise A) (k : A -> Promise B) : Promise B :=
  fun w =>
    match p w with
    | (Some (Fulfilled a), w1) => k a w1
    | (Some (Rejected e), w1) => (Some (Rejected e), w1)
    | (None, w1) => (None, w1)
    end.

(** [try { body } catch (error) { handler error }]. *)
Definition try_catch {A : Type} (body : Promise A) (handler : JSError -> Promise A)
  : Promise A :=
  fun w =>
    match body w with
    | (Some (Rejected e), w1) => handler e w1
    | other => other
    end.

Notation "x <- p ;; k" := (await p (fun x => k))
  (at level 61, p at next level, right associativity).
Notation "p ;;; k" := (await p (fun _ => k))
  (at level 61, right associativity).

(** [Promise.allSettled]: every promise is run and the result never rejects.
    The promises run one after the other, in list order: the interleaving of
    their requests is not modelled (requests on distinct connections do not
    depend on each other). *)
Fixpoint Promise_allSettled {A : Type} (ps : list (Promise A))
  : Promise (list (Settled A)) :=
  fun w =>
    match ps with
    | [] => (Some (Fulfilled []), w)
    | p :: rest =>
        match p w with
        | (None, w1) => (None, w1)
        | (Some r, w1) =>
            match Promise_allSettled rest w1 with
            | (Some (Fulfilled rs), w2) => (Some (Fulfilled (r :: rs)), w2)
            | other => other
            end
        end
    end.

Definition firstRejection {A : Type} (rs : list (Settled A)) : option JSError :=
  match find (fun r => match r with Rejected _ => true | Fulfilled _ => false end) rs with
  | Some (Rejected e) => Some e
  | _ => None
  end.

Definition fulfilledValues {A : Type} (rs : list (Settled A)) : list A :=
  flat_map (fun r => match r with Fulfilled a => [a] | Rejected _ => [] end) rs.

(** [Promise.all]: the promises were all started by the [map] that built the
    list, so each one runs; the result rejects with the first rejection. *)
Definition Promise_all {A : Type} (ps : list (Promise A)) : Promise (list A) :=
  rs <- Promise_allSettled ps ;;
  match firstRejection rs with
  | Some e => throw e
  | None => resolve (fulfilledValues rs)
  end.

(* ================================================================== *)
(** * The AWS SDK clients *)
(* ================================================================== *)

Definition record (c : Command) (w : World) : World :=
  {| table := table w; commands := commands w ++ [c]; uuidsDrawn := uuidsDrawn w |}.

Definition withTable (t : list ConnectionItem) (w : World) : World :=
  {| table := t; commands := commands w; uuidsDrawn := uuidsDrawn w |}.

(** The items stored after the item with key [k]. *)
Fixpoint afterKey (k : string) (items : list ConnectionItem) : list ConnectionItem :=
  match items with
  | [] => []
  | x :: rest => if connectionId x =? k then rest else afterKey k rest
  end.

(** [ProjectionExpression: 'connectionId']. *)
Definition project (x : ConnectionItem) : ConnectionItem :=
  {| connectionId := connectionId x; timestamp := None; ttl := None |}.

Definition deleteKey (k : string) (items : list ConnectionItem) : list ConnectionItem :=
  filter (fun x => negb (connectionId x =? k)) items.

Fixpoint putItem (item : ConnectionItem) (items : list ConnectionItem)
  : list ConnectionItem :=
  match items with
  | [] => [item]
  | x :: rest =>
      if connectionId x =? connectionId item then item :: rest
      else x :: putItem item rest
  end.

Definition lookupConnection (k : string) (items : list ConnectionItem)
  : option ConnectionItem :=
  find (fun x => connectionId x =? k) items.

Section Clients.

Variable cloud : Cloud.

(** A page holds at least one item and at most [scanPageLimit]; the key of
    its last item comes back as [LastEvaluatedKey] while items remain. *)
Definition pageSize : nat := Nat.max 1 (scanPageLimit cloud).

Definition scanPage (ExclusiveStartKey : option string) (items : list ConnectionItem)
  : ScanCommandOutput :=
  let remaining :=
    match ExclusiveStartKey with
    | None => items
    | Some k => afterKey k items
    end in
  {| Items := Some (map project (firstn pageSize remaining));
     LastEvaluatedKey :=
       if (List.length remaining <=? pageSize)%nat then None
       else option_map connectionId (nth_error remaining (pageSize - 1)) |}.

Definition send_Scan (TableName : string) (ExclusiveStartKey : option string)
  : Promise ScanCommandOutput :=
  fun w =>
    let w1 := record (ScanCommand TableName ExclusiveStartKey) w in
    match scanFault cloud ExclusiveStartKey with
    | Some e => (Some (Rejected e), w1)
    | None => (Some (Fulfilled (scanPage ExclusiveStartKey (table w))), w1)
    end.

Definition send_Put (TableName : string) (Item : ConnectionItem) : Promise unit :=
  fun w =>
    let w1 := record (PutCommand TableName Item) w in
    match putFault cloud (connectionId Item) with
    | Some e => (Some (Rejected e), w1)
    | None => (Some (Fulfilled tt), withTable (putItem Item (table w1)) w1)
    end.

Definition send_Delete (TableName : string) (Key : string) : Promise unit :=
  fun w =>
    let w1 := record (DeleteCommand TableName Key) w in
    match deleteFault cloud Key with
    | Some e => (Some (Rejected e), w1)
    | None => (Some (Fulfilled tt), withTable (deleteKey Key (table w1)) w1)
    end.

Definition send_PostToConnection (ConnectionId : string) (Data : string)
  : Promise unit :=
  fun w =>
    let w1 := record (PostToConnectionCommand ConnectionId Data) w in
    match postFault cloud ConnectionId with
    | Some e => (Some (Rejected e), w1)
    | None => (Some (Fulfilled tt), w1)
    end.

(** [randomUUID()]. *)
Definition randomUUID : Promise string :=
  fun w =>
    (Some (Fulfilled (randomUUID_at cloud (uuidsDrawn w))),
     {| table := table w; commands := commands w; uuidsDrawn := S (uuidsDrawn w) |}).

(** [JSON.parse(text)]. *)
Definition parse (text : string) : Promise JSON :=
  match JSON_parse cloud text with
  | inl e => throw e
  | inr v => resolve v
  end.

(** [v.k] for the property names the handlers read ([type], [data],
    [version], [id], [source], [meta]): reading from [null] throws a
    TypeError, a primitive or an array has no such property. *)
Definition getProp (v : JSON) (k : string) : Promise JSValue :=
  match v with
  | JNull => throw (newError "Cannot read properties of null")
  | JObject fields => resolve (lookupField k fields)
  | _ => resolve None
  end.

End Clients.

(* ================================================================== *)
(** * infrastructure/aws-sam/websocket-handlers *)
(* ================================================================== *)

Module AwsSam.

(** ** shared/utils.ts

    The [logger] calls only write to the console and are left out. *)
Module Utils.
Section WithCloud.

Variable cloud : Cloud.

Definition createResponse (status : Z) (payload : JSON)
  (extraHeaders : list (string * string)) : LambdaResponse :=
  {| statusCode := status;
     headers := ("Content-Type", "application/json") :: extraHeaders;
     body := JSON_stringify cloud payload |}.

Definition createCorsResponse (status : Z) (payload : JSON)
  (corsOrigin : option string) : LambdaResponse :=
  createResponse status payload
    [ ("Access-Control-Allow-Origin", orElse corsOrigin "*");
      ("Access-Control-Allow-Headers", "Content-Type,Authorization");
      ("Access-Control-Allow-Methods", "GET,POST,PUT,DELETE,OPTIONS") ].

(** [{ message, ...(error && { error }) }] *)
Definition errorPayload (message : string) (error : option string) : JSON :=
  JObject (("message", JString message) ::
           match error with
           | Some e => if e =? EmptyString then [] else [("error", JString e)]
           | None => []
           end).

Definition createErrorResponse (status : Z) (message : string)
  (error : option string) (corsOrigin : option string) : LambdaResponse :=
  createCorsResponse status (errorPayload message error) corsOrigin.

Definition readConfig (env : ProcessEnv) : EnvironmentConfig :=
  {| AWS_REGION := orElse (env_AWS_REGION env) "ap-northeast-1";
     DYNAMODB_CONNECTIONS_TABLE := orElse (env_DYNAMODB_CONNECTIONS_TABLE env) EmptyString;
     WEBSOCKET_API_ENDPOINT := orElse (env_WEBSOCKET_API_ENDPOINT env) EmptyString;
     DYNAMODB_ENDPOINT := env_DYNAMODB_ENDPOINT env;
     LOG_LEVEL := Some (orElse (env_LOG_LEVEL env) "INFO");
     CORS_ORIGIN := env_CORS_ORIGIN env |}.

Definition validateEnvironment : Promise EnvironmentConfig :=
  let config := readConfig (process_env cloud) in
  if DYNAMODB_CONNECTIONS_TABLE config =? EmptyString then
    throw (newError "DYNAMODB_CONNECTIONS_TABLE environment variable is required")
  else if WEBSOCKET_API_ENDPOINT config =? EmptyString then
    throw (newError "WEBSOCKET_API_ENDPOINT environment variable is required")
  else resolve config.

(** [new TextEncoder().encode(JSON.stringify(message))]: a string is its
    UTF-8 bytes. *)
Definition encodeMessage (message : JSON) : string :=
  JSON_stringify cloud message.

(** [Math.floor(Date.now() / 1000) + hoursFromNow * 3600] *)
Definition createTtl (hoursFromNow : Z) : Z :=
  (Date_now cloud / 1000 + hoursFromNow * 3600)%Z.

End WithCloud.
End Utils.

(** ** shared/broadcast-service.ts *)
Module BroadcastService.
Section WithCloud.

Variable cloud : Cloud.

Record t : Type := {
  tableName : string;
  chunkSize : nat
}.

(** [new BroadcastService(tableName)] *)
Definition new (name : string) : t :=
  {| tableName := name; chunkSize := 50 |}.

Record Tally : Type := {
  sent : nat;
  failed : nat;
  stale : nat
}.

Variable this : t.

(** The [do ... while (lastEvaluatedKey)] loop; [fuel] bounds the number of
    scans the model follows. *)
Fixpoint getAllConnections_loop (fuel : nat) (lastEvaluatedKey : option string)
  (allConnections : list ConnectionItem) : Promise (list ConnectionItem) :=
  match fuel with
  | O => pending
  | S fuel' =>
      result <- send_Scan cloud (tableName this) lastEvaluatedKey ;;
      let allConnections :=
        match Items result with
        | Some items => allConnections ++ items
        | None => allConnections
        end in
      match LastEvaluatedKey result with
      | Some k => getAllConnections_loop fuel' (Some k) allConnections
      | None => resolve allConnections
      end
  end.

(** One scan per page suffices, and a page holds at least one item. *)
Definition getAllConnections : Promise (list ConnectionItem) :=
  fun w => getAllConnections_loop (S (List.length (table w))) None [] w.

(** [error.$metadata?.httpStatusCode === 410 || error.statusCode === 410] *)
Definition isGone (error : JSError) : bool :=
  match err_httpStatusCode error with
  | Some c => (c =? 410)%Z
  | None => false
  end
  || match err_statusCode error with
     | Some c => (c =? 410)%Z
     | None => false
     end.

Definition removeStaleConnection (id : string) : Promise unit :=
  try_catch
    (send_Delete cloud (tableName this) id)
    (fun _ => resolve tt).

Definition sendToConnection (id : string) (message : JSON) : Promise bool :=
  try_catch
    (send_PostToConnection cloud id (Utils.encodeMessage cloud message) ;;;
     resolve true)
    (fun error =>
       if isGone error then
         removeStaleConnection id ;;;
         resolve false
       else resolve false).

(** [connections.slice(i, j)] for [i <= j]. *)
Definition slice {A : Type} (i j : nat) (l : list A) : list A :=
  firstn (j - i) (skipn i l).

(** The body of [results.forEach]. *)
Definition count (tally : Tally) (result : Settled bool) : Tally :=
  match result with
  | Fulfilled true =>
      {| sent := S (sent tally); failed := failed tally; stale := stale tally |}
  | Fulfilled false =>
      {| sent := sent tally; failed := failed tally; stale := S (stale tally) |}
  | Rejected _ =>
      {| sent := sent tally; failed := S (failed tally); stale := stale tally |}
  end.

(** [await new Promise(resolve => setTimeout(resolve, ms))]: time is not
    part of the world. *)
Definition delay (ms : nat) : Promise unit := resolve tt.

(** The [for (let i = 0; i < connections.length; i += this.chunkSize)] loop. *)
Fixpoint broadcastToAll_loop (fuel : nat) (connections : list ConnectionItem)
  (message : JSON) (i : nat) (tally : Tally) : Promise Tally :=
  match fuel with
  | O => pending
  | S fuel' =>
      if (i <? List.length connections)%nat then
        let chunk := slice i (i + chunkSize this) connections in
        results <- Promise_allSettled
                     (map (fun c => sendToConnection (connectionId c) message) chunk) ;;
        let tally := fold_left count results tally in
        (if (i + chunkSize this <? List.length connections)%nat
         then delay 10 else resolve tt) ;;;
        broadcastToAll_loop fuel' connections message (i + chunkSize this) tally
      else resolve tally
  end.

Definition broadcastToAll (message : JSON) : Promise Tally :=
  connections <- getAllConnections ;;
  broadcastToAll_loop (S (List.length connections)) connections message 0
    {| sent := 0; failed := 0; stale := 0 |}.

End WithCloud.
End BroadcastService.

(** ** broadcast.ts *)
Module Broadcast.
Section WithCloud.

Variable cloud : Cloud.

(** [{ type, data, timestamp: new Date().toISOString() }] *)
Definition webSocketMessage (type data : JSValue) : JSON :=
  JObject (property "type" type ++ property "data" data
           ++ [ ("timestamp", JString (toISOString cloud)) ]).

Definition completed (results : BroadcastService.Tally) : JSON :=
  let of_nat n := JNumber (Z.of_nat n) in
  JObject
    [ ("message", JString "Broadcast completed");
      ("results",
        JObject
          [ ("totalConnections",
              of_nat (BroadcastService.sent results
                      + BroadcastService.failed results
                      + BroadcastService.stale results));
            ("sent", of_nat (BroadcastService.sent results));
            ("failed", of_nat (BroadcastService.failed results));
            ("staleRemoved", of_nat (BroadcastService.stale results)) ]) ].

(** What the handler does once the request body has been parsed. *)
Definition broadcastParsed (config : EnvironmentConfig) (requestBody : JSON)
  : Promise LambdaResponse :=
  let corsOrigin := CORS_ORIGIN config in
  type <- getProp requestBody "type" ;;
  data <- getProp requestBody "data" ;;
  if negb (truthyValue type) || negb (truthyValue data) then
    resolve (Utils.createErrorResponse cloud 400
               "Missing required fields: type, data" None corsOrigin)
  else
    let message := webSocketMessage type data in
    let broadcastService :=
      BroadcastService.new (DYNAMODB_CONNECTIONS_TABLE config) in
    results <- BroadcastService.broadcastToAll cloud broadcastService message ;;
    resolve (Utils.createCorsResponse cloud 200 (completed results) corsOrigin).

Definition onError (error : JSError) : Promise LambdaResponse :=
  let corsOrigin := env_CORS_ORIGIN (process_env cloud) in
  if isConfigurationError error then
    resolve (Utils.createErrorResponse cloud 500 "Server configuration error"
               None corsOrigin)
  else
    resolve (Utils.createErrorResponse cloud 500 "Broadcast failed"
               (Some (messageOf error)) corsOrigin).

Definition handler (event : APIGatewayProxyEvent) : Promise LambdaResponse :=
  try_catch
    (config <- Utils.validateEnvironment cloud ;;
     let corsOrigin := CORS_ORIGIN config in
     match event_body event with
     | None =>
         resolve (Utils.createErrorResponse cloud 400 "Missing request body"
                    None corsOrigin)
     | Some text =>
         if text =? EmptyString then
           resolve (Utils.createErrorResponse cloud 400 "Missing request body"
                      None corsOrigin)
         else
           match JSON_parse cloud text with
           | inl _ =>
               resolve (Utils.createErrorResponse cloud 400
                          "Invalid JSON in request body" None corsOrigin)
           | inr requestBody => broadcastParsed config requestBody
           end
     end)
    onError.

End WithCloud.
End Broadcast.

(** ** default.ts *)
Module Default.
Section WithCloud.

Variable cloud : Cloud.

Definition echo (original : JSON) (id : string) : JSON :=
  JObject
    [ ("type", JString "echo");
      ("data", JObject [ ("message", JString "Message received");
                         ("original", original);
                         ("connectionId", JString id) ]);
      ("timestamp", JString (toISOString cloud)) ].

Definition onError (error : JSError) : Promise LambdaResponse :=
  if isConfigurationError error then
    resolve (Utils.createErrorResponse cloud 500 "Server configuration error"
               None None)
  else
    resolve (Utils.createErrorResponse cloud 500 "Failed to process message"
               (Some (messageOf error)) None).

Definition handler (event : APIGatewayProxyEvent) : Promise LambdaResponse :=
  let connectionId := requestContext_connectionId event in
  if negb (truthyString connectionId) then
    resolve (Utils.createErrorResponse cloud 400 "Missing connection ID" None None)
  else
    let connectionId := orElse connectionId EmptyString in
    try_catch
      (Utils.validateEnvironment cloud ;;;
       message <- parse cloud (orElse (event_body event) "{}") ;;
       let response := echo message connectionId in
       send_PostToConnection cloud connectionId
         (Utils.encodeMessage cloud response) ;;;
       resolve (Utils.createResponse cloud 200
                  (JObject [ ("message", JString "Message processed") ]) []))
      onError.

End WithCloud.
End Default.

(** ** connect.ts *)
Module Connect.
Section WithCloud.

Variable cloud : Cloud.

Definition onError (error : JSError) : Promise LambdaResponse :=
  if isConfigurationError error then
    resolve (Utils.createErrorResponse cloud 500 "Server configuration error"
               None None)
  else
    resolve (Utils.createErrorResponse cloud 500 "Failed to connect"
               (Some (messageOf error)) None).

Definition handler (event : APIGatewayProxyEvent) : Promise LambdaResponse :=
  let connectionId := requestContext_connectionId event in
  if negb (truthyString connectionId) then
    resolve (Utils.createErrorResponse cloud 400 "Missing connection ID" None None)
  else
    let id := orElse connectionId EmptyString in
    try_catch
      (config <- Utils.validateEnvironment cloud ;;
       let connectionItem :=
         {| connectionId := id;
            timestamp := Some (Date_now cloud);
            ttl := Some (Utils.createTtl cloud 24) |} in
       send_Put cloud (DYNAMODB_CONNECTIONS_TABLE config) connectionItem ;;;
       resolve (Utils.createResponse cloud 200
                  (JObject [ ("message", JString "Connected") ]) []))
      onError.

End WithCloud.
End Connect.

(** ** disconnect.ts *)
Module Disconnect.
Section WithCloud.

Variable cloud : Cloud.

Definition onError (error : JSError) : Promise LambdaResponse :=
  if isConfigurationError error then
    resolve (Utils.createErrorResponse cloud 500 "Server configuration error"
               None None)
  else
    resolve (Utils.createErrorResponse cloud 500 "Failed to disconnect"
               (Some (messageOf error)) None).

Definition handler (event : APIGatewayProxyEvent) : Promise LambdaResponse :=
  let connectionId := requestContext_connectionId event in
  if negb (truthyString connectionId) then
    resolve (Utils.createErrorResponse cloud 400 "Missing connection ID" None None)
  else
    let id := orElse connectionId EmptyString in
    try_catch
      (config <- Utils.validateEnvironment cloud ;;
       send_Delete cloud (DYNAMODB_CONNECTIONS_TABLE config) id ;;;
       resolve (Utils.createResponse cloud 200
                  (JObject [ ("message", JString "Disconnected") ]) []))
      onError.

End WithCloud.
End Disconnect.

End AwsSam.

(* ================================================================== *)
(** * infrastructure/serverless/src/handlers *)
(* ================================================================== *)

Module Serverless.
Section WithCloud.

Variable cloud : Cloud.

Definition plainResponse (status : Z) (payload : JSON) : LambdaResponse :=
  {| statusCode := status; headers := []; body := JSON_stringify cloud payload |}.

Definition originHeader : string * string :=
  ("Access-Control-Allow-Origin", orElse (env_CORS_ORIGIN (process_env cloud)) "*").

Definition originResponse (status : Z) (payload : JSON) : LambdaResponse :=
  {| statusCode := status; headers := [originHeader];
     body := JSON_stringify cloud payload |}.

(** The echo of the default handler. *)
Definition echo (id : string) : JSON :=
  JObject
    [ ("type", JString "echo");
      ("version", JString "1");
      ("id", JString id);
      ("timestamp", JString (toISOString cloud));
      ("source", JString "backend");
      ("data", JObject [ ("message", JString "Message received") ]) ].

(** Default WebSocket message handler. *)
Definition handler (event : APIGatewayProxyEvent) : Promise LambdaResponse :=
  let connectionId := requestContext_connectionId event in
  if negb (truthyString connectionId) then
    resolve (plainResponse 400 (JObject [ ("message", JString "Missing connection ID") ]))
  else
    let connectionId := orElse connectionId EmptyString in
    try_catch
      (message <- parse cloud (orElse (event_body event) "{}") ;;
       id <- randomUUID cloud ;;
       let response := echo id in
       send_PostToConnection cloud connectionId (JSON_stringify cloud response) ;;;
       resolve (plainResponse 200 (JObject [ ("message", JString "Message processed") ])))
      (fun error =>
         resolve (plainResponse 500
                    (JObject [ ("message", JString "Failed to process message");
                               ("error", JString (messageOf error)) ]))).

(** [{ type, version: version ?? '1', id: id ?? randomUUID(), timestamp,
      source: source ?? 'backend', data, ...(meta ? { meta } : {}) }] *)
Definition webSocketMessage (type data version source meta : JSValue) (id : JSON)
  : JSON :=
  JObject (property "type" type
           ++ [ ("version", nullish version (JString "1"));
                ("id", id);
                ("timestamp", JString (toISOString cloud));
                ("source", nullish source (JString "backend")) ]
           ++ property "data" data
           ++ (if truthyValue meta then property "meta" meta else [])).

(** [id ?? randomUUID()]: an identifier is drawn only when [id] is nullish. *)
Definition idOrRandom (id : JSValue) : Promise JSON :=
  match id with
  | None => u <- randomUUID cloud ;; resolve (JString u)
  | Some JNull => u <- randomUUID cloud ;; resolve (JString u)
  | Some j => resolve j
  end.

(** [error?.$metadata?.httpStatusCode || error?.statusCode] *)
Definition statusOf (error : JSError) : option Z :=
  match err_httpStatusCode error with
  | Some c => if (c =? 0)%Z then err_statusCode error else Some c
  | None => err_statusCode error
  end.

Definition isGone (error : JSError) : bool :=
  match statusOf error with
  | Some c => (c =? 410)%Z
  | None => false
  end.

(** The callback mapped over the scanned items. *)
Definition pushOne (tableName messageData : string) (item : ConnectionItem)
  : Promise unit :=
  try_catch
    (send_PostToConnection cloud (connectionId item) messageData)
    (fun error =>
       if isGone error then send_Delete cloud tableName (connectionId item)
       else resolve tt).

Definition itemsOrEmpty (output : ScanCommandOutput) : list ConnectionItem :=
  match Items output with
  | Some items => items
  | None => []
  end.

(** HTTP endpoint for broadcasting. *)
Definition broadcastToAll (event : APIGatewayProxyEvent) : Promise LambdaResponse :=
  let tableName := env_DYNAMODB_CONNECTIONS_TABLE (process_env cloud) in
  if negb (truthyString tableName) then
    resolve (originResponse 500 (JObject [ ("message", JString "Server configuration error") ]))
  else
    let tableName := orElse tableName EmptyString in
    try_catch
      (if negb (truthyString (event_body event)) then
         resolve (originResponse 400 (JObject [ ("message", JString "Missing request body") ]))
       else
         requestBody <- parse cloud (orElse (event_body event) EmptyString) ;;
         type <- getProp requestBody "type" ;;
         data <- getProp requestBody "data" ;;
         version <- getProp requestBody "version" ;;
         id <- getProp requestBody "id" ;;
         source <- getProp requestBody "source" ;;
         meta <- getProp requestBody "meta" ;;
         connections <- send_Scan cloud tableName None ;;
         id <- idOrRandom id ;;
         let message := webSocketMessage type data version source meta id in
         let messageData := JSON_stringify cloud message in
         Promise_all (map (pushOne tableName messageData) (itemsOrEmpty connections)) ;;;
         resolve
           {| statusCode := 200;
              headers := [ originHeader;
                           ("Access-Control-Allow-Headers", "Content-Type,Authorization");
                           ("Access-Control-Allow-Methods", "POST,OPTIONS") ];
              body := JSON_stringify cloud
                        (JObject
                           [ ("message", JString "Broadcast completed");
                             ("connectionCount",
                               JNumber (Z.of_nat (List.length (itemsOrEmpty connections)))) ]) |})
      (fun error =>
         resolve (originResponse 500
                    (JObject [ ("message", JString "Broadcast failed");
                               ("error", JString (messageOf error)) ]))).

End WithCloud.

(** ** handlers/connect.ts *)
Module Connect.
Section WithCloud.

Variable cloud : Cloud.

Definition handler (event : APIGatewayProxyEvent) : Promise LambdaResponse :=
  let connectionId := requestContext_connectionId event in
  let tableName := env_DYNAMODB_CONNECTIONS_TABLE (process_env cloud) in
  if negb (truthyString connectionId) then
    resolve (plainResponse cloud 400
               (JObject [ ("message", JString "Missing connection ID") ]))
  else if negb (truthyString tableName) then
    resolve (plainResponse cloud 500
               (JObject [ ("message", JString "Server configuration error") ]))
  else
    let id := orElse connectionId EmptyString in
    let tableName := orElse tableName EmptyString in
    try_catch
      (send_Put cloud tableName
         {| connectionId := id;
            timestamp := Some (Date_now cloud);
            ttl := Some (Date_now cloud / 1000 + 86400)%Z |} ;;;
       resolve (plainResponse cloud 200 (JObject [ ("message", JString "Connected") ])))
      (fun error =>
         resolve (plainResponse cloud 500
                    (JObject [ ("message", JString "Failed to connect");
                               ("error", JString (messageOf error)) ]))).

End WithCloud.
End Connect.

(** ** handlers/disconnect.ts *)
Module Disconnect.
Section WithCloud.

Variable cloud : Cloud.

Definition handler (event : APIGatewayProxyEvent) : Promise LambdaResponse :=
  let connectionId := requestContext_connectionId event in
  let tableName := env_DYNAMODB_CONNECTIONS_TABLE (process_env cloud) in
  if negb (truthyString connectionId) then
    resolve (plainResponse cloud 400
               (JObject [ ("message", JString "Missing connection ID") ]))
  else if negb (truthyString tableName) then
    resolve (plainResponse cloud 500
               (JObject [ ("message", JString "Server configuration error") ]))
  else
    let id := orElse connectionId EmptyString in
    let tableName := orElse tableName EmptyString in
    try_catch
      (send_Delete cloud tableName id ;;;
       resolve (plainResponse cloud 200
                  (JObject [ ("message", JString "Disconnected") ])))
      (fun error =>
         resolve (plainResponse cloud 500
                    (JObject [ ("message", JString "Failed to disconnect");
                               ("error", JString (messageOf error)) ]))).

End WithCloud.
End Disconnect.

(** ** utils.ts *)
Module Utils.

(** [s.slice(n)] *)
Fixpoint dropString (n : nat) (s : string) : string :=
  match n, s with
  | O, _ => s
  | S m, EmptyString => EmptyString
  | S m, String _ rest => dropString m rest
  end.

(** [s.replace(pattern, replacement)] for a string pattern and a replacement
    without [$]: the first occurrence is replaced. *)
Fixpoint replace (pattern replacement s : string) : string :=
  if String.prefix pattern s then
    (replacement ++ dropString (String.length pattern) s)%string
  else match s with
       | EmptyString => EmptyString
       | String c rest => String c (replace pattern replacement rest)
       end.

(** [s.startsWith(p)] *)
Definition startsWith (s p : string) : bool := String.prefix p s.

Definition normalizeManagementEndpoint (raw : string) : string :=
  if startsWith raw "wss://" then replace "wss://" "https://" raw
  else if startsWith raw "ws://" then replace "ws://" "http://" raw
  else raw.

End Utils.

End Serverless.

(* ================================================================== *)
(** * Worked scenarios *)
(* ================================================================== *)

(** Concrete runtimes, tables and events on which the handlers are run. *)
Module Scenario.

Definition quote : string := String (ascii_of_nat 34) EmptyString.

Definition quoted (s : string) : string := (quote ++ s ++ quote)%string.

Fixpoint join (sep : string) (parts : list string) : string :=
  match parts with
  | [] => EmptyString
  | [p] => p
  | p :: rest => (p ++ sep ++ join sep rest)%string
  end.

(** A serializer for values whose strings need no escaping. *)
Fixpoint render (v : JSON) : string :=
  match v with
  | JNull => "null"
  | JBool true => "true"
  | JBool false => "false"
  | JNumber n => DecimalString.NilZero.string_of_int (Z.to_int n)
  | JString s => quoted s
  | JArray items => ("[" ++ join "," (map render items) ++ "]")%string
  | JObject fields =>
      ("{" ++ join "," (map (fun kv => match kv with
                                       | (k, x) => quoted k ++ ":" ++ render x
                                       end) fields) ++ "}")%string
  end.

Definition syntaxError : JSError :=
  {| instanceofError := true; err_message := "Unexpected token in JSON";
     err_httpStatusCode := None; err_statusCode := None |}.

(** A parser that knows the request bodies of the scenarios. *)
Definition parseAmong (known : list JSON) (text : string) : JSError + JSON :=
  match find (fun v => render v =? text) known with
  | Some v => inr v
  | None => inl syntaxError
  end.

Fixpoint tally (n : nat) : string :=
  match n with
  | O => EmptyString
  | S m => String "I" (tally m)
  end.

Definition uuidOf (n : nat) : string := ("uuid-" ++ tally n)%string.

(** A push to a closed connection. *)
Definition goneException : JSError :=
  {| instanceofError := true; err_message := "GoneException";
     err_httpStatusCode := Some 410%Z; err_statusCode := None |}.

(** A push that timed out. *)
Definition timeoutError : JSError :=
  {| instanceofError := true; err_message := "TimeoutError";
     err_httpStatusCode := None; err_statusCode := None |}.

(** A DynamoDB request that was throttled. *)
Definition throttlingException : JSError :=
  {| instanceofError := true; err_message := "ThrottlingException";
     err_httpStatusCode := Some 400%Z; err_statusCode := None |}.

Definition testEnv : ProcessEnv :=
  {| env_AWS_REGION := Some "ap-northeast-1";
     env_DYNAMODB_CONNECTIONS_TABLE := Some "test-connections";
     env_WEBSOCKET_API_ENDPOINT := Some "http://localhost:3001";
     env_DYNAMODB_ENDPOINT := None;
     env_LOG_LEVEL := None;
     env_CORS_ORIGIN := Some "http://localhost:3000" |}.

(** [{"type":"test","data":{"x":1}}] *)
Definition testRequest : JSON :=
  JObject [ ("type", JString "test"); ("data", JObject [ ("x", JNumber 1) ]) ].

(** [{"type":"test"}] *)
Definition requestWithoutData : JSON :=
  JObject [ ("type", JString "test") ].

(** [{"type":"test","data":0}] *)
Definition requestWithZeroData : JSON :=
  JObject [ ("type", JString "test"); ("data", JNumber 0) ].

(** [{"type":"test","data":{}}] *)
Definition requestWithEmptyData : JSON :=
  JObject [ ("type", JString "test"); ("data", JObject []) ].

(** [{"type":"test","data":{"x":1},"id":"evt-1","source":"notes"}] *)
Definition requestWithId : JSON :=
  JObject [ ("type", JString "test"); ("data", JObject [ ("x", JNumber 1) ]);
            ("id", JString "evt-1"); ("source", JString "notes") ].

Definition knownBodies : list JSON :=
  [ JObject []; testRequest; requestWithoutData; requestWithZeroData;
    requestWithEmptyData; requestWithId ].

(** A runtime with the given page limit and faults. *)
Definition cloudWith (limit : nat)
  (scanF : option string -> option JSError)
  (putF deleteF postF : string -> option JSError) : Cloud :=
  {| process_env := testEnv;
     JSON_parse := parseAmong knownBodies;
     JSON_stringify := render;
     toISOString := "2024-01-01T00:00:00.000Z";
     Date_now := 1704067200000%Z;
     randomUUID_at := uuidOf;
     scanPageLimit := limit;
     scanFault := scanF;
     putFault := putF;
     deleteFault := deleteF;
     postFault := postF |}.

Definition noFault {K : Type} : K -> option JSError := fun _ => None.

Definition faultAt (k : string) (e : JSError) : string -> option JSError :=
  fun k' => if k' =? k then Some e else None.

(** Every request succeeds. *)
Definition healthy : Cloud := cloudWith 100 noFault noFault noFault noFault.

(** Scenario A of the specification: c1 is delivered, c2 is gone, the push
    to c3 times out. *)
Definition scenarioA : Cloud :=
  cloudWith 100 noFault noFault noFault
    (fun k => if k =? "c2" then Some goneException
              else if k =? "c3" then Some timeoutError
              else None).

(** c2 is gone and DynamoDB throttles the delete of its record. *)
Definition goneAndThrottled : Cloud :=
  cloudWith 100 noFault noFault (faultAt "c2" throttlingException)
    (faultAt "c2" goneException).


(** Scan pages of one item. *)
Definition smallPages : Cloud := cloudWith 1 noFault noFault noFault noFault.

(** The required table name is not configured. *)
Definition unconfigured : Cloud :=
  {| process_env :=
       {| env_AWS_REGION := None; env_DYNAMODB_CONNECTIONS_TABLE := None;
          env_WEBSOCKET_API_ENDPOINT := None; env_DYNAMODB_ENDPOINT := None;
          env_LOG_LEVEL := None; env_CORS_ORIGIN := None |};
     JSON_parse := parseAmong knownBodies;
     JSON_stringify := render;
     toISOString := "2024-01-01T00:00:00.000Z";
     Date_now := 1704067200000%Z;
     randomUUID_at := uuidOf;
     scanPageLimit := 100;
     scanFault := noFault;
     putFault := noFault;
     deleteFault := noFault;
     postFault := noFault |}.

Definition connection (id : string) : ConnectionItem :=
  {| connectionId := id; timestamp := Some 1704067200000%Z;
     ttl := Some 1704153600%Z |}.

Definition worldOf (ids : list string) : World :=
  {| table := map connection ids; commands := []; uuidsDrawn := 0 |}.

(** An HTTP request to the broadcast endpoint. *)
Definition post (requestBody : string) : APIGatewayProxyEvent :=
  {| event_body := Some requestBody; requestContext_connectionId := None |}.

(** A message received on a WebSocket connection. *)
Definition inbound (id : string) (rawMessage : option string) : APIGatewayProxyEvent :=
  {| event_body := rawMessage; requestContext_connectionId := Some id |}.

Definition responseOf (r : option (Settled LambdaResponse) * World)
  : option LambdaResponse :=
  match fst r with
  | Some (Fulfilled response) => Some response
  | _ => None
  end.

Definition statusOf (r : option (Settled LambdaResponse) * World) : option Z :=
  option_map statusCode (responseOf r).


(** The transport answers a push to c9 with 410. *)
Definition senderGone : Cloud :=
  cloudWith 100 noFault noFault noFault (faultAt "c9" goneException).

(** A runtime whose parser also knows the body [null]. *)
Definition parsingNull : Cloud :=
  {| process_env := testEnv;
     JSON_parse := parseAmong (JNull :: knownBodies);
     JSON_stringify := render;
     toISOString := "2024-01-01T00:00:00.000Z";
     Date_now := 1704067200000%Z;
     randomUUID_at := uuidOf;
     scanPageLimit := 100;
     scanFault := noFault;
     putFault := noFault;
     deleteFault := noFault;
     postFault := noFault |}.



End Scenario.

(** The keys stored in a table and the pushes found in a trace. *)
Definition keys (items : list ConnectionItem) : list string :=
  map connectionId items.

Definition isPost (c : Command) : bool :=
  match c with
  | PostToConnectionCommand _ _ => true
  | _ => false
  end.

Definition isScan (c : Command) : bool :=
  match c with
  | ScanCommand _ _ => true
  | _ => false
  end.

Definition pushes (w : World) : list Command := filter isPost (commands w).

(** The connections a trace pushes to, in order. *)
Definition recipients (w : World) : list string :=
  flat_map (fun c => match c with
                     | PostToConnectionCommand id _ => [id]
                     | _ => []
                     end) (commands w).

Definition scans (w : World) : list Command := filter isScan (commands w).

(* ================================================================== *)
(** * Vocabulary of the statements *)
(* ================================================================== *)

(** Both required environment variables are set. *)
Definition configured (cloud : Cloud) : bool :=
  truthyString (env_DYNAMODB_CONNECTIONS_TABLE (process_env cloud))
  && truthyString (env_WEBSOCKET_API_ENDPOINT (process_env cloud)).

(** The value a non-empty request body parses to. *)
Definition parsedBody (cloud : Cloud) (event : APIGatewayProxyEvent) : option JSON :=
  match event_body event with
  | None => None
  | Some text =>
      if text =? EmptyString then None
      else match JSON_parse cloud text with
           | inr v => Some v
           | inl _ => None
           end
  end.

(** The property [k] of a parsed, non-null value. *)
Definition field (v : JSON) (k : string) : JSValue :=
  match v with
  | JObject fields => lookupField k fields
  | _ => None
  end.

(** [v ?? d] takes [d]: the property is absent or null. *)
Definition omitted (v : JSValue) : bool :=
  match v with
  | None => true
  | Some JNull => true
  | Some _ => false
  end.

(** The transport accepts a push to [id]. *)
Definition delivered (cloud : Cloud) (id : string) : bool :=
  match postFault cloud id with
  | None => true
  | Some _ => false
  end.

(** The transport answers a push to [id] with status 410. *)
Definition gone (cloud : Cloud) (id : string) : bool :=
  match postFault cloud id with
  | None => false
  | Some e => AwsSam.BroadcastService.isGone e
  end.

(** The push to [id] fails, but not with status 410. *)
Definition transient (cloud : Cloud) (id : string) : bool :=
  match postFault cloud id with
  | None => false
  | Some e => negb (AwsSam.BroadcastService.isGone e)
  end.

(** DynamoDB accepts the delete of [id]. *)
Definition deletable (cloud : Cloud) (id : string) : bool :=
  match deleteFault cloud id with
  | None => true
  | Some _ => false
  end.

Definition others (id : string) (connections : list ConnectionItem)
  : list ConnectionItem :=
  filter (fun c => negb (connectionId c =? id)) connections.

(** The world after one [sendToConnection]. *)
Definition afterSend (cloud : Cloud) (this : AwsSam.BroadcastService.t)
  (message : JSON) (w : World) (id : string) : World :=
  let w1 := record (PostToConnectionCommand id
                      (AwsSam.Utils.encodeMessage cloud message)) w in
  if gone cloud id then
    let w2 := record (DeleteCommand (AwsSam.BroadcastService.tableName this) id) w1 in
    if deletable cloud id then withTable (deleteKey id (table w2)) w2 else w2
  else w1.

(** The tally after the outcomes of [connections] are counted. *)
Definition counted (cloud : Cloud) (tally : AwsSam.BroadcastService.Tally)
  (connections : list ConnectionItem) : AwsSam.BroadcastService.Tally :=
  {| AwsSam.BroadcastService.sent :=
       AwsSam.BroadcastService.sent tally
       + List.length (filter (fun c => delivered cloud (connectionId c)) connections);
     AwsSam.BroadcastService.failed := AwsSam.BroadcastService.failed tally;
     AwsSam.BroadcastService.stale :=
       AwsSam.BroadcastService.stale tally
       + List.length (filter (fun c => negb (delivered cloud (connectionId c)))
                        connections) |}.

(** The configuration [validateEnvironment] returns. *)
Definition configOf (cloud : Cloud) : EnvironmentConfig :=
  AwsSam.Utils.readConfig (process_env cloud).

(** The service the broadcast handler constructs. *)
Definition serviceOf (cloud : Cloud) : AwsSam.BroadcastService.t :=
  AwsSam.BroadcastService.new (DYNAMODB_CONNECTIONS_TABLE (configOf cloud)).

(** The response of the validation gate of the broadcast handler. *)
Definition missingFields (cloud : Cloud) : LambdaResponse :=
  AwsSam.Utils.createErrorResponse cloud 400
    "Missing required fields: type, data" None (CORS_ORIGIN (configOf cloud)).

(** The response of a completed broadcast. *)
Definition broadcastCompleted (cloud : Cloud)
  (results : AwsSam.BroadcastService.Tally) : LambdaResponse :=
  AwsSam.Utils.createCorsResponse cloud 200
    (AwsSam.Broadcast.completed results) (CORS_ORIGIN (configOf cloud)).

Definition emptyTally : AwsSam.BroadcastService.Tally :=
  {| AwsSam.BroadcastService.sent := 0;
     AwsSam.BroadcastService.failed := 0;
     AwsSam.BroadcastService.stale := 0 |}.

(** Every run of [p] takes a world to one related to it by [R]. *)
Definition respects {A : Type} (R : World -> World -> Prop) (p : Promise A) : Prop :=
  forall w r w1, p w = (r, w1) -> R w w1.


(** No key is added. *)
Definition addsNoKey (w w1 : World) : Prop :=
  incl (keys (table w1)) (keys (table w)).

(** The statuses a handler answers with. *)
Definition answered (response : LambdaResponse) : Prop :=
  statusCode response = 200%Z \/ statusCode response = 400%Z
  \/ statusCode response = 500%Z.

(** The JSON content type and the allowed origin of the deployment. *)
Definition corsHeaders (cloud : Cloud) (response : LambdaResponse) : Prop :=
  In ("Content-Type", "application/json") (headers response)
  /\ In ("Access-Control-Allow-Origin",
         orElse (env_CORS_ORIGIN (process_env cloud)) "*") (headers response).

(** A connection id the handlers accept. *)
Definition present (id : string) (event : APIGatewayProxyEvent) : Prop :=
  requestContext_connectionId event = Some id /\ id <> EmptyString.

(** The record Connect stores for [id]. *)
Definition connectedItem (cloud : Cloud) (id : string) : ConnectionItem :=
  {| connectionId := id;
     timestamp := Some (Date_now cloud);
     ttl := Some (Date_now cloud / 1000 + 86400)%Z |}.

(** How the callback of the serverless broadcast settles for [item]. *)
Definition pushOutcome (cloud : Cloud) (item : ConnectionItem) : Settled unit :=
  match postFault cloud (connectionId item) with
  | None => Fulfilled tt
  | Some e =>
      if Serverless.isGone e then
        match deleteFault cloud (connectionId item) with
        | Some e' => Rejected e'
        | None => Fulfilled tt
        end
      else Fulfilled tt
  end.

(** The stale delete of [item] is attempted and refused. *)
Definition deleteRefused (cloud : Cloud) (item : ConnectionItem) : bool :=
  match pushOutcome cloud item with
  | Rejected _ => true
  | Fulfilled _ => false
  end.


(** The push of [data] to each of [connections], in order. *)
Definition pushesTo (data : string) (connections : list ConnectionItem)
  : list Command :=
  map (fun c => PostToConnectionCommand (connectionId c) data) connections.

(* ================================================================== *)
(** * Promises: equations *)
(* ================================================================== *)

Unset Implicit Arguments.

Section PromiseFacts.

Context {A B : Type}.

Lemma await_fulfilled (p : Promise A) (k : A -> Promise B) w a w1 :
  p w = (Some (Fulfilled a), w1) -> await p k w = k a w1.
Proof. intros H. unfold await. now rewrite H. Qed.

Lemma await_rejected (p : Promise A) (k : A -> Promise B) w e w1 :
  p w = (Some (Rejected e), w1) -> await p k w = (Some (Rejected e), w1).
Proof. intros H. unfold await. now rewrite H. Qed.


Lemma try_catch_fulfilled (p : Promise A) (h : JSError -> Promise A) w a w1 :
  p w = (Some (Fulfilled a), w1) -> try_catch p h w = (Some (Fulfilled a), w1).
Proof. intros H. unfold try_catch. now rewrite H. Qed.

Lemma try_catch_rejected (p : Promise A) (h : JSError -> Promise A) w e w1 :
  p w = (Some (Rejected e), w1) -> try_catch p h w = h e w1.
Proof. intros H. unfold try_catch. now rewrite H. Qed.

End PromiseFacts.

(* ================================================================== *)
(** * The trace and the table *)
(* ================================================================== *)

Lemma pushes_record_post w id data :
  pushes (record (PostToConnectionCommand id data) w)
  = pushes w ++ [PostToConnectionCommand id data].
Proof. unfold pushes, record; simpl. now rewrite filter_app. Qed.

Lemma pushes_record_other w c :
  isPost c = false -> pushes (record c w) = pushes w.
Proof.
  intros H. unfold pushes, record; simpl.
  rewrite filter_app; simpl. rewrite H. apply app_nil_r.
Qed.

Lemma pushes_withTable t w : pushes (withTable t w) = pushes w.
Proof. reflexivity. Qed.

Lemma In_keys_deleteKey k id items :
  In k (keys (deleteKey id items)) <-> In k (keys items) /\ k <> id.
Proof.
  unfold keys, deleteKey. rewrite !in_map_iff. split.
  - intros [x [Hx Hin]]. apply filter_In in Hin as [Hin Hne].
    apply negb_true_iff, String.eqb_neq in Hne. subst k.
    split; [exists x; auto | assumption].
  - intros [[x [Hx Hin]] Hne]. exists x. split; [assumption|].
    apply filter_In. split; [assumption|].
    apply negb_true_iff, String.eqb_neq. now subst k.
Qed.

Lemma lookupConnection_None k items :
  lookupConnection k items = None <-> ~ In k (keys items).
Proof.
  unfold lookupConnection, keys. split.
  - intros H Hin. apply in_map_iff in Hin as [x [Hx Hin]].
    apply (find_none _ _ H) in Hin. subst k.
    now rewrite String.eqb_refl in Hin.
  - intros H. destruct (find _ items) as [x|] eqn:E; [|reflexivity].
    apply find_some in E as [Hin Heq]. apply String.eqb_eq in Heq.
    exfalso. apply H. apply in_map_iff. exists x. auto.
Qed.

Lemma lookupConnection_Some k items :
  In k (keys items) -> exists x, lookupConnection k items = Some x.
Proof.
  intros Hin. destruct (lookupConnection k items) as [x|] eqn:E.
  - now exists x.
  - apply lookupConnection_None in E. contradiction.
Qed.

(* ================================================================== *)
(** * The broadcast service *)
(* ================================================================== *)

Local Open Scope nat_scope.

Section BroadcastServiceFacts.

Import AwsSam.BroadcastService.

Variable cloud : Cloud.
Variable this : AwsSam.BroadcastService.t.
Variable message : JSON.

#[local] Abbreviation send := (fun c : ConnectionItem =>
                    sendToConnection cloud this (connectionId c) message).
#[local] Abbreviation sendAll := (fold_left (afterSend cloud this message)).

(** [sendToConnection] never rejects: it fulfils with [true] exactly when
    the push is accepted. *)
Lemma sendToConnection_run id w :
  sendToConnection cloud this id message w
  = (Some (Fulfilled (delivered cloud id)), afterSend cloud this message w id).
Proof.
  unfold sendToConnection, try_catch, await, send_PostToConnection,
    removeStaleConnection, send_Delete, afterSend, delivered, gone, deletable,
    resolve.
  destruct (postFault cloud id) as [e|]; [|reflexivity].
  destruct (isGone e); [|reflexivity].
  unfold try_catch.
  destruct (deleteFault cloud id); reflexivity.
Qed.

Lemma allSettled_run chunk w :
  Promise_allSettled (map send chunk) w
  = (Some (Fulfilled (map (fun c => Fulfilled (delivered cloud (connectionId c))) chunk)),
     sendAll (map connectionId chunk) w).
Proof.
  revert w. induction chunk as [|c chunk IH]; intros w; [reflexivity|].
  cbn [map Promise_allSettled fold_left].
  rewrite sendToConnection_run, IH. reflexivity.
Qed.

Lemma count_run chunk tally :
  fold_left count
    (map (fun c => Fulfilled (delivered cloud (connectionId c))) chunk) tally
  = counted cloud tally chunk.
Proof.
  revert tally. induction chunk as [|c chunk IH]; intros tally.
  - destruct tally. unfold counted; simpl. f_equal; lia.
  - cbn [map fold_left]. rewrite IH. unfold counted, count; simpl.
    destruct (delivered cloud (connectionId c)); simpl; f_equal; lia.
Qed.

Lemma counted_app tally l1 l2 :
  counted cloud (counted cloud tally l1) l2 = counted cloud tally (l1 ++ l2).
Proof.
  unfold counted; simpl. rewrite !filter_app, !length_app. f_equal; lia.
Qed.


Hypothesis chunk_positive : 0 < chunkSize this.

(** The chunked loop sends to each remaining connection once, in order. *)
Lemma broadcastToAll_loop_run fuel connections i tally w :
  List.length (skipn i connections) < fuel ->
  broadcastToAll_loop cloud this fuel connections message i tally w
  = (Some (Fulfilled (counted cloud tally (skipn i connections))),
     sendAll (map connectionId (skipn i connections)) w).
Proof.
  revert i tally w. induction fuel as [|fuel IH]; intros i tally w Hfuel; [lia|].
  cbn [broadcastToAll_loop].
  destruct (i <? List.length connections) eqn:Hi.
  - apply Nat.ltb_lt in Hi.
    unfold slice. replace (i + chunkSize this - i) with (chunkSize this) by lia.
    set (rest := skipn i connections) in *.
    assert (Hrest : skipn (i + chunkSize this) connections
                    = skipn (chunkSize this) rest).
    { unfold rest. rewrite skipn_skipn. f_equal. lia. }
    assert (Hlen : List.length rest = List.length connections - i).
    { unfold rest. apply length_skipn. }
    erewrite await_fulfilled by apply allSettled_run.
    rewrite count_run.
    assert (Hdelay :
      (if i + chunkSize this <? List.length connections
       then delay 10 else resolve tt)
        (sendAll (map connectionId (firstn (chunkSize this) rest)) w)
      = (Some (Fulfilled tt),
         sendAll (map connectionId (firstn (chunkSize this) rest)) w)).
    { destruct (i + chunkSize this <? List.length connections); reflexivity. }
    erewrite await_fulfilled by apply Hdelay.
    rewrite IH.
    + rewrite Hrest, counted_app, <- fold_left_app, <- map_app.
      now rewrite firstn_skipn.
    + rewrite Hrest, length_skipn. lia.
  - apply Nat.ltb_ge in Hi.
    rewrite (skipn_all2 connections Hi). unfold resolve.
    destruct tally; unfold counted; simpl. now rewrite !Nat.add_0_r.
Qed.

(** Sending never touches the pushes already in the trace. *)
Lemma pushes_afterSend w id :
  pushes (afterSend cloud this message w id)
  = pushes w ++ [PostToConnectionCommand id (AwsSam.Utils.encodeMessage cloud message)].
Proof.
  unfold afterSend.
  destruct (gone cloud id); [|apply pushes_record_post].
  destruct (deletable cloud id);
    rewrite ?pushes_withTable, pushes_record_other by reflexivity;
    apply pushes_record_post.
Qed.

Lemma pushes_sendAll ids w :
  pushes (sendAll ids w)
  = pushes w
    ++ map (fun id => PostToConnectionCommand id
                        (AwsSam.Utils.encodeMessage cloud message)) ids.
Proof.
  revert w. induction ids as [|id ids IH]; intros w; simpl.
  - now rewrite app_nil_r.
  - rewrite IH, pushes_afterSend, <- app_assoc. reflexivity.
Qed.

Lemma table_afterSend w id :
  table (afterSend cloud this message w id)
  = if gone cloud id && deletable cloud id then deleteKey id (table w)
    else table w.
Proof.
  unfold afterSend.
  destruct (gone cloud id); [|reflexivity].
  destruct (deletable cloud id); reflexivity.
Qed.

(** What a broadcast leaves in the table: a key is removed exactly when its
    push was answered with 410 and its delete was accepted. *)
Lemma In_keys_sendAll ids w k :
  In k (keys (table (sendAll ids w)))
  <-> In k (keys (table w))
      /\ ~ (In k ids /\ gone cloud k = true /\ deletable cloud k = true).
Proof.
  revert w. induction ids as [|id ids IH]; intros w; simpl.
  - tauto.
  - rewrite IH, table_afterSend.
    destruct (gone cloud id && deletable cloud id) eqn:E.
    + apply andb_true_iff in E as [Eg Ed].
      rewrite In_keys_deleteKey. split.
      * intros [[Hin Hne] Hno]. split; [assumption|].
        intros [[Heq|Hids] [Hg Hd]]; [congruence|tauto].
      * intros [Hin Hno]. split; [split; [assumption|]|].
        -- intros ->. apply Hno. auto.
        -- intros [Hids Hgd]. apply Hno. tauto.
    + split.
      * intros [Hin Hno]. split; [assumption|].
        intros [[Heq|Hids] [Hg Hd]]; [|tauto].
        subst id. rewrite Hg, Hd in E. discriminate.
      * intros [Hin Hno]. split; [assumption|]. tauto.
Qed.

(** Every scan leaves the table and the pushes as they are. *)
Lemma getAllConnections_loop_keeps fuel key acc w r w1 :
  getAllConnections_loop cloud this fuel key acc w = (r, w1) ->
  table w1 = table w /\ pushes w1 = pushes w /\ uuidsDrawn w1 = uuidsDrawn w.
Proof.
  revert key acc w. induction fuel as [|fuel IH]; intros key acc w H.
  - inversion H; subst. auto.
  - cbn [getAllConnections_loop] in H.
    unfold await, send_Scan in H.
    destruct (scanFault cloud key).
    + inversion H; subst. repeat split. now apply pushes_record_other.
    + destruct (LastEvaluatedKey (scanPage cloud key (table w))) as [k|].
      * apply IH in H as (Ht & Hp & Hu). rewrite Ht, Hp, Hu.
        repeat split. now apply pushes_record_other.
      * inversion H; subst. repeat split. now apply pushes_record_other.
Qed.

Lemma getAllConnections_keeps w r w1 :
  getAllConnections cloud this w = (r, w1) ->
  table w1 = table w /\ pushes w1 = pushes w /\ uuidsDrawn w1 = uuidsDrawn w.
Proof. apply getAllConnections_loop_keeps. Qed.

(** [broadcastToAll], once the scan has produced [connections]. *)
Lemma broadcastToAll_run w connections w1 :
  getAllConnections cloud this w = (Some (Fulfilled connections), w1) ->
  broadcastToAll cloud this message w
  = (Some (Fulfilled
             (counted cloud emptyTally connections)),
     sendAll (map connectionId connections) w1).
Proof.
  intros H. unfold broadcastToAll.
  erewrite await_fulfilled by exact H.
  rewrite broadcastToAll_loop_run by (simpl; lia).
  reflexivity.
Qed.


End BroadcastServiceFacts.

(* ================================================================== *)
(** * The broadcast handler *)
(* ================================================================== *)

Section BroadcastHandlerFacts.

Import AwsSam.

Variable cloud : Cloud.

Lemma orElse_truthy s d :
  truthyString s = true -> orElse s d = orElse s EmptyString
                           /\ (orElse s d =? EmptyString)%string = false.
Proof.
  destruct s as [t|]; simpl; [|discriminate].
  destruct (t =? EmptyString)%string eqn:E; simpl; [discriminate|auto].
Qed.

Lemma validateEnvironment_run w :
  configured cloud = true ->
  Utils.validateEnvironment cloud w = (Some (Fulfilled (configOf cloud)), w).
Proof.
  unfold configured. intros H. apply andb_true_iff in H as [Ht He].
  unfold Utils.validateEnvironment, configOf, Utils.readConfig; simpl.
  destruct (orElse_truthy _ EmptyString Ht) as [_ ->].
  destruct (orElse_truthy _ EmptyString He) as [_ ->].
  reflexivity.
Qed.

Lemma validateEnvironment_throws w :
  configured cloud = false ->
  exists e, Utils.validateEnvironment cloud w = (Some (Rejected e), w)
            /\ isConfigurationError e = true.
Proof.
  unfold configured, Utils.validateEnvironment, Utils.readConfig; simpl.
  intros H.
  destruct (orElse _ EmptyString =? EmptyString)%string eqn:Et.
  - eexists. split; reflexivity.
  - destruct (orElse (env_WEBSOCKET_API_ENDPOINT _) EmptyString =? EmptyString)%string
      eqn:Ee.
    + eexists. split; reflexivity.
    + exfalso. apply andb_false_iff in H as [H|H].
      * destruct (env_DYNAMODB_CONNECTIONS_TABLE (process_env cloud)) as [t|];
          simpl in *; [|discriminate].
        destruct (t =? EmptyString)%string; simpl in *; congruence.
      * destruct (env_WEBSOCKET_API_ENDPOINT (process_env cloud)) as [t|];
          simpl in *; [|discriminate].
        destruct (t =? EmptyString)%string; simpl in *; congruence.
Qed.

Lemma getProp_field v k w :
  v <> JNull -> getProp v k w = (Some (Fulfilled (field v k)), w).
Proof. destruct v; intros H; try reflexivity. contradiction. Qed.

(** With the environment set and a body that parses, the handler is the
    code after [JSON.parse]. *)
Lemma handler_parsed event requestBody w :
  configured cloud = true ->
  parsedBody cloud event = Some requestBody ->
  Broadcast.handler cloud event w
  = try_catch (Broadcast.broadcastParsed cloud (configOf cloud) requestBody)
      (Broadcast.onError cloud) w.
Proof.
  intros Hc Hp. unfold Broadcast.handler, try_catch.
  erewrite await_fulfilled by (apply validateEnvironment_run; assumption).
  unfold parsedBody in Hp.
  destruct (event_body event) as [text|]; [|discriminate].
  destruct (text =? EmptyString)%string; [discriminate|].
  destruct (JSON_parse cloud text); [discriminate|].
  now inversion Hp.
Qed.

(** The validation gate: a falsy [type] or [data] ends the handler. *)
Lemma handler_rejects event requestBody w :
  configured cloud = true ->
  parsedBody cloud event = Some requestBody ->
  requestBody <> JNull ->
  truthyValue (field requestBody "type") && truthyValue (field requestBody "data")
  = false ->
  Broadcast.handler cloud event w = (Some (Fulfilled (missingFields cloud)), w).
Proof.
  intros Hc Hp Hn Hv. rewrite (handler_parsed event requestBody w Hc Hp).
  unfold try_catch, Broadcast.broadcastParsed.
  erewrite await_fulfilled by (apply getProp_field; assumption).
  erewrite await_fulfilled by (apply getProp_field; assumption).
  rewrite <- negb_andb, Hv. reflexivity.
Qed.



End BroadcastHandlerFacts.

(* ================================================================== *)
(** * Paginated scans *)
(* ================================================================== *)

Section ScanFacts.

Import AwsSam.BroadcastService.

Variable cloud : Cloud.
Variable this : AwsSam.BroadcastService.t.

Lemma pageSize_positive : 1 <= pageSize cloud.
Proof. unfold pageSize. lia. Qed.

(** With unique keys, the key of an item finds the items stored after it. *)
Lemma afterKey_split pre x post :
  ~ In (connectionId x) (keys pre) ->
  afterKey (connectionId x) (pre ++ x :: post) = post.
Proof.
  induction pre as [|y pre IH]; intros Hnot; simpl.
  - now rewrite String.eqb_refl.
  - destruct (connectionId y =? connectionId x)%string eqn:E.
    + apply String.eqb_eq in E. exfalso. apply Hnot. now left.
    + apply IH. intros Hin. apply Hnot. now right.
Qed.

Lemma NoDup_keys_middle pre x post :
  NoDup (keys (pre ++ x :: post)) -> ~ In (connectionId x) (keys pre).
Proof.
  unfold keys. rewrite map_app. simpl. intros H Hin.
  apply NoDup_remove_2 in H. apply H. apply in_or_app. now left.
Qed.

(** The next page starts where the last one stopped. *)
Lemma next_page_start seen remaining x :
  NoDup (keys (seen ++ remaining)) ->
  nth_error remaining (pageSize cloud - 1) = Some x ->
  afterKey (connectionId x) (seen ++ remaining)
  = skipn (pageSize cloud) remaining.
Proof.
  intros Hnd Hnth.
  destruct (nth_error_split _ _ Hnth) as (l1 & l2 & Heq & Hlen).
  assert (Hps : pageSize cloud = S (List.length l1)).
  { pose proof pageSize_positive. lia. }
  rewrite Hps, Heq.
  replace (skipn (S (List.length l1)) (l1 ++ x :: l2)) with l2.
  - rewrite app_assoc. apply afterKey_split.
    rewrite Heq, app_assoc in Hnd. now apply NoDup_keys_middle in Hnd.
  - change (x :: l2) with ([x] ++ l2). rewrite app_assoc.
    assert (Hl : List.length (l1 ++ [x]) = S (List.length l1)).
    { rewrite length_app. simpl. lia. }
    rewrite skipn_app, Hl, Nat.sub_diag, skipn_all2 by lia.
    reflexivity.
Qed.

Hypothesis scans_succeed : forall key, scanFault cloud key = None.

(** The scan loop returns what remains to be read, page after page. *)
Lemma getAllConnections_loop_complete fuel seen remaining key acc w :
  table w = seen ++ remaining ->
  NoDup (keys (table w)) ->
  match key with
  | None => table w
  | Some k => afterKey k (table w)
  end = remaining ->
  List.length remaining < fuel ->
  exists w1,
    getAllConnections_loop cloud this fuel key acc w
    = (Some (Fulfilled (acc ++ map project remaining)), w1).
Proof.
  revert seen remaining key acc w.
  induction fuel as [|fuel IH]; intros seen remaining key acc w Ht Hnd Hkey Hfuel;
    [lia|].
  cbn [getAllConnections_loop]. unfold await, send_Scan.
  rewrite scans_succeed. unfold scanPage. rewrite Hkey. cbn [Items LastEvaluatedKey].
  destruct (List.length remaining <=? pageSize cloud) eqn:Hlast.
  - apply Nat.leb_le in Hlast. rewrite firstn_all2 by assumption.
    eexists. reflexivity.
  - apply Nat.leb_gt in Hlast.
    destruct (nth_error remaining (pageSize cloud - 1)) as [x|] eqn:Hnth.
    + cbn [option_map].
      pose proof pageSize_positive as Hpos.
      replace (acc ++ map project remaining)
        with ((acc ++ map project (firstn (pageSize cloud) remaining))
              ++ map project (skipn (pageSize cloud) remaining))
        by (now rewrite <- app_assoc, <- map_app, firstn_skipn).
      apply (IH (seen ++ firstn (pageSize cloud) remaining)
                (skipn (pageSize cloud) remaining)).
      * cbn [record table]. rewrite Ht, <- app_assoc. now rewrite firstn_skipn.
      * exact Hnd.
      * cbn [record table]. rewrite Ht. apply next_page_start; [|assumption].
        now rewrite <- Ht.
      * rewrite length_skipn. lia.
    + apply nth_error_None in Hnth. pose proof pageSize_positive. lia.
Qed.

(** [getAllConnections] returns the key of every stored record. *)
Lemma getAllConnections_complete w :
  NoDup (keys (table w)) ->
  exists w1,
    getAllConnections cloud this w
    = (Some (Fulfilled (map project (table w))), w1)
    /\ table w1 = table w /\ pushes w1 = pushes w.
Proof.
  intros Hnd. unfold getAllConnections.
  destruct (@getAllConnections_loop_complete (S (List.length (table w)))
              [] (table w) None [] w eq_refl Hnd eq_refl (Nat.lt_succ_diag_r _))
    as [w1 H1].
  exists w1. split; [exact H1|].
  apply getAllConnections_loop_keeps in H1. tauto.
Qed.

End ScanFacts.

(* ================================================================== *)
(** * Properties of the broadcast engine *)
(* ================================================================== *)



Lemma chunkSize_new name : 0 < AwsSam.BroadcastService.chunkSize
                                 (AwsSam.BroadcastService.new name).
Proof. simpl. lia. Qed.







(** A broadcast leaves the record of a connection whose push fails with a
    transient error where it is. *)
Lemma transient_failure_keeps_record cloud name message w connections w0 id :
  AwsSam.BroadcastService.getAllConnections cloud
    (AwsSam.BroadcastService.new name) w
  = (Some (Fulfilled connections), w0) ->
  transient cloud id = true ->
  In id (keys (table w)) ->
  exists results w1,
    AwsSam.BroadcastService.broadcastToAll cloud
      (AwsSam.BroadcastService.new name) message w
    = (Some (Fulfilled results), w1)
    /\ In id (keys (table w1)).
Proof.
  intros Hscan Htr Hin.
  rewrite (broadcastToAll_run cloud _ message (chunkSize_new name)
             w connections w0 Hscan).
  do 2 eexists. split; [reflexivity|].
  apply In_keys_sendAll.
  destruct (getAllConnections_keeps cloud _ w _ w0 Hscan) as (-> & _).
  split; [assumption|].
  intros (_ & Hg & _). unfold transient, gone in *.
  destruct (postFault cloud id) as [e|]; [|discriminate].
  rewrite Hg in Htr. discriminate.
Qed.

(** C1: at Scenario A of the specification (c1 delivered, c2 gone, the push
    to c3 times out) the broadcast leaves the record of c3 in the table, but
    counts c3 in [stale] and not in [failed]: the handler reports sent 1,
    failed 0, staleRemoved 2. *)
Theorem transient_failure_is_counted_as_stale :
  let r := AwsSam.Broadcast.handler Scenario.scenarioA
             (Scenario.post (Scenario.render Scenario.testRequest))
             (Scenario.worldOf ["c1"; "c2"; "c3"]) in
  transient Scenario.scenarioA "c3" = true
  /\ fst r
     = Some (Fulfilled
               (broadcastCompleted Scenario.scenarioA
                  {| AwsSam.BroadcastService.sent := 1;
                     AwsSam.BroadcastService.failed := 0;
                     AwsSam.BroadcastService.stale := 2 |}))
  /\ keys (table (snd r)) = ["c1"; "c3"].
Proof. vm_compute. repeat split. Qed.

Lemma others_absent id connections :
  ~ In id (keys connections) -> others id connections = connections.
Proof.
  induction connections as [|c l IH]; intros Hnot; [reflexivity|].
  unfold others in *. simpl.
  destruct (connectionId c =? id)%string eqn:E.
  - apply String.eqb_eq in E. exfalso. apply Hnot. now left.
  - simpl. f_equal. apply IH. intros Hin. apply Hnot. now right.
Qed.

(** With unique keys, a connection contributes to a count exactly once. *)
Lemma count_once (p : string -> bool) id connections :
  NoDup (keys connections) ->
  In id (keys connections) ->
  List.length (filter (fun c => p (connectionId c)) connections)
  = (if p id then 1 else 0)
    + List.length (filter (fun c => p (connectionId c)) (others id connections)).
Proof.
  induction connections as [|c l IH]; intros Hnd Hin; [contradiction|].
  simpl in Hnd. apply NoDup_cons_iff in Hnd as [Hfresh Hnd].
  unfold others in *. simpl.
  destruct (connectionId c =? id)%string eqn:E.
  - apply String.eqb_eq in E. rewrite E in *. simpl.
    fold (others id l). rewrite (others_absent id l Hfresh).
    destruct (p id); reflexivity.
  - apply String.eqb_neq in E. destruct Hin as [Hin|Hin]; [contradiction|].
    simpl. specialize (IH Hnd Hin).
    destruct (p (connectionId c)); simpl; rewrite IH; lia.
Qed.

(** C2, as amended: when the push to a scanned connection is answered with
    410 and DynamoDB accepts the delete, the broadcast removes the record (a
    lookup after the broadcast finds nothing) and counts the connection
    exactly once, in [stale]. *)
Theorem gone_connection_is_reaped cloud name message w connections w0 id :
  AwsSam.BroadcastService.getAllConnections cloud
    (AwsSam.BroadcastService.new name) w
  = (Some (Fulfilled connections), w0) ->
  NoDup (keys connections) ->
  In id (keys connections) ->
  gone cloud id = true ->
  deletable cloud id = true ->
  exists results w1,
    AwsSam.BroadcastService.broadcastToAll cloud
      (AwsSam.BroadcastService.new name) message w
    = (Some (Fulfilled results), w1)
    /\ lookupConnection id (table w1) = None
    /\ AwsSam.BroadcastService.stale results
       = 1 + List.length (filter (fun c => negb (delivered cloud (connectionId c)))
                            (others id connections))
    /\ AwsSam.BroadcastService.sent results
       = List.length (filter (fun c => delivered cloud (connectionId c))
                        (others id connections))
    /\ AwsSam.BroadcastService.failed results = 0.
Proof.
  intros Hscan Hnd Hin Hgone Hdel.
  rewrite (broadcastToAll_run cloud _ message (chunkSize_new name)
             w connections w0 Hscan).
  do 2 eexists. split; [reflexivity|].
  assert (Hund : delivered cloud id = false).
  { unfold gone, delivered in *. destruct (postFault cloud id); [reflexivity|discriminate]. }
  split; [|split; [|split]].
  - apply lookupConnection_None. rewrite In_keys_sendAll.
    intros [_ Hno]. apply Hno. auto.
  - cbn. rewrite (count_once (fun k => negb (delivered cloud k)) id connections Hnd Hin).
    now rewrite Hund.
  - cbn. rewrite (count_once (delivered cloud) id connections Hnd Hin).
    now rewrite Hund.
  - reflexivity.
Qed.

Lemma gone_connection_is_reaped_witness :
  exists results w1,
    AwsSam.BroadcastService.broadcastToAll Scenario.scenarioA
      (AwsSam.BroadcastService.new "test-connections") Scenario.testRequest
      (Scenario.worldOf ["c1"; "c2"; "c3"])
    = (Some (Fulfilled results), w1)
    /\ lookupConnection "c2" (table w1) = None
    /\ AwsSam.BroadcastService.stale results = 2.
Proof.
  destruct (gone_connection_is_reaped Scenario.scenarioA "test-connections"
              Scenario.testRequest
              (Scenario.worldOf ["c1"; "c2"; "c3"])
              (map project (table (Scenario.worldOf ["c1"; "c2"; "c3"])))
              (record (ScanCommand "test-connections" None)
                 (Scenario.worldOf ["c1"; "c2"; "c3"]))
              "c2")
    as (results & w1 & Hrun & Hlookup & Hstale & _).
  - reflexivity.
  - repeat constructor; simpl; intuition discriminate.
  - simpl. auto.
  - reflexivity.
  - reflexivity.
  - exists results, w1. split; [exact Hrun|]. split; [exact Hlookup|].
    rewrite Hstale. reflexivity.
Defined.

(** C2 as stated fails when DynamoDB rejects the delete: c2 is gone, its
    delete is throttled, the record of c2 is still found after the broadcast
    and c2 is counted in [stale] all the same. *)
Lemma gone_record_survives_a_failed_delete :
  let r := AwsSam.BroadcastService.broadcastToAll Scenario.goneAndThrottled
             (AwsSam.BroadcastService.new "test-connections") Scenario.testRequest
             (Scenario.worldOf ["c1"; "c2"; "c3"]) in
  gone Scenario.goneAndThrottled "c2" = true
  /\ fst r = Some (Fulfilled {| AwsSam.BroadcastService.sent := 2;
                                AwsSam.BroadcastService.failed := 0;
                                AwsSam.BroadcastService.stale := 1 |})
  /\ lookupConnection "c2" (table (snd r)) = Some (Scenario.connection "c2").
Proof. vm_compute. repeat split. Qed.

(* ================================================================== *)
(** * Storage failures *)
(* ================================================================== *)

Lemma truthy_connectionId (id : string) :
  id <> EmptyString -> truthyString (Some id) = true /\ orElse (Some id) EmptyString = id.
Proof.
  intros Hne. simpl.
  destruct (id =? EmptyString)%string eqn:E; [|auto].
  apply String.eqb_eq in E. contradiction.
Qed.




(* ================================================================== *)
(** * The validation gate and the enumeration, in both variants *)
(* ================================================================== *)

(** C4 as stated fails for the serverless endpoint, which has no gate: a
    request without [data] is answered 200 after the table was scanned and an
    envelope without [data] was pushed to c1. *)
Lemma serverless_broadcasts_a_request_without_data :
  let r := Serverless.broadcastToAll Scenario.healthy
             (Scenario.post (Scenario.render Scenario.requestWithoutData))
             (Scenario.worldOf ["c1"]) in
  field Scenario.requestWithoutData "data" = None
  /\ Scenario.statusOf r = Some 200%Z
  /\ scans (snd r) = [ScanCommand "test-connections" None]
  /\ recipients (snd r) = ["c1"].
Proof. vm_compute. repeat split. Qed.

(** C4 (amended): in the aws-sam broadcast handler, with the environment set,
    a request in which [type] or [data] is missing is answered with the 400
    response of the gate and the world is left as it was: no command is sent
    to the table or to the transport. *)
Theorem validation_gate_touches_nothing cloud event requestBody w :
  configured cloud = true ->
  parsedBody cloud event = Some requestBody ->
  requestBody <> JNull ->
  field requestBody "type" = None \/ field requestBody "data" = None ->
  exists response w1,
    AwsSam.Broadcast.handler cloud event w = (Some (Fulfilled response), w1)
    /\ response = missingFields cloud
    /\ statusCode response = 400%Z
    /\ w1 = w
    /\ scans w1 = scans w
    /\ pushes w1 = pushes w.
Proof.
  intros Hc Hp Hn Hmissing.
  exists (missingFields cloud), w.
  split; [|repeat split].
  apply (handler_rejects cloud event requestBody w Hc Hp Hn).
  destruct Hmissing as [-> | ->]; [reflexivity|apply andb_false_r].
Qed.

Lemma validation_gate_touches_nothing_witness :
  exists response w1,
    AwsSam.Broadcast.handler Scenario.healthy
      (Scenario.post (Scenario.render Scenario.requestWithoutData))
      (Scenario.worldOf ["c1"])
    = (Some (Fulfilled response), w1)
    /\ response = missingFields Scenario.healthy
    /\ statusCode response = 400%Z
    /\ w1 = Scenario.worldOf ["c1"]
    /\ scans w1 = scans (Scenario.worldOf ["c1"])
    /\ pushes w1 = pushes (Scenario.worldOf ["c1"]).
Proof.
  apply (validation_gate_touches_nothing Scenario.healthy
           (Scenario.post (Scenario.render Scenario.requestWithoutData))
           Scenario.requestWithoutData (Scenario.worldOf ["c1"])).
  - reflexivity.
  - reflexivity.
  - discriminate.
  - right. reflexivity.
Defined.

(** C6 as stated fails for the serverless endpoint, which sends one
    [ScanCommand] and never follows [LastEvaluatedKey]: with pages of one
    item and two records, only c1 is pushed to. *)
Lemma serverless_scans_one_page_only :
  let r := Serverless.broadcastToAll Scenario.smallPages
             (Scenario.post (Scenario.render Scenario.testRequest))
             (Scenario.worldOf ["c1"; "c2"]) in
  keys (table (Scenario.worldOf ["c1"; "c2"])) = ["c1"; "c2"]
  /\ scans (snd r) = [ScanCommand "test-connections" None]
  /\ recipients (snd r) = ["c1"]
  /\ Scenario.statusOf r = Some 200%Z.
Proof. vm_compute. repeat split. Qed.

(** C6 (amended): in the aws-sam broadcast engine, for every table (with
    unique keys) whose scans succeed, [getAllConnections] returns the key of
    every stored record, in storage order, however many pages the table
    spans; the table and the pushes are left as they were. *)
Theorem getAllConnections_returns_every_record cloud name w :
  NoDup (keys (table w)) ->
  (forall key, scanFault cloud key = None) ->
  exists connections w1,
    AwsSam.BroadcastService.getAllConnections cloud
      (AwsSam.BroadcastService.new name) w
    = (Some (Fulfilled connections), w1)
    /\ connections = map project (table w)
    /\ keys connections = keys (table w)
    /\ table w1 = table w
    /\ pushes w1 = pushes w.
Proof.
  intros Hnd Hscan.
  destruct (getAllConnections_complete cloud (AwsSam.BroadcastService.new name)
              Hscan w Hnd) as (w1 & Hrun & Ht & Hp).
  exists (map project (table w)), w1.
  repeat split; try assumption.
  unfold keys. rewrite map_map. reflexivity.
Qed.

Lemma getAllConnections_returns_every_record_witness :
  exists connections w1,
    AwsSam.BroadcastService.getAllConnections Scenario.smallPages
      (AwsSam.BroadcastService.new "test-connections")
      (Scenario.worldOf ["c1"; "c2"; "c3"])
    = (Some (Fulfilled connections), w1)
    /\ keys connections = ["c1"; "c2"; "c3"]
    /\ List.length (scans w1) = 3.
Proof.
  destruct (getAllConnections_returns_every_record Scenario.smallPages
              "test-connections" (Scenario.worldOf ["c1"; "c2"; "c3"]))
    as (connections & w1 & Hrun & Hc & Hk & _).
  - repeat constructor; simpl; intuition discriminate.
  - reflexivity.
  - exists connections, w1. split; [exact Hrun|]. split; [exact Hk|].
    vm_compute in Hrun. inversion Hrun. reflexivity.
Defined.

(* ================================================================== *)
(** * The default handler *)
(* ================================================================== *)

(** C7 as stated fails: a body that is not JSON makes [JSON.parse] throw
    inside the [try]; the handler answers 500 and pushes nothing to c9. *)
Lemma malformed_body_is_a_hard_failure :
  let r := AwsSam.Default.handler Scenario.healthy
             (Scenario.inbound "c9" (Some "not json"))
             (Scenario.worldOf ["c9"]) in
  JSON_parse Scenario.healthy "not json" = inl Scenario.syntaxError
  /\ Scenario.statusOf r = Some 500%Z
  /\ commands (snd r) = [].
Proof. vm_compute. repeat split. Qed.

(** C7 (amended): for an inbound invocation with a connection id, the default
    handler parses [event.body || '{}'], so an absent or empty body is the
    empty object; when the text parses and the push is accepted, an echo
    that wraps the parsed payload goes back to the same connection and the
    answer is 200.  A body that is not JSON is a hard failure: both default
    handlers answer 500 and send nothing. *)
Theorem default_handler_echoes_or_fails cloud event id w :
  configured cloud = true ->
  requestContext_connectionId event = Some id ->
  id <> EmptyString ->
  (truthyString (event_body event) = false ->
   orElse (event_body event) "{}" = "{}")
  /\ (forall original,
         JSON_parse cloud (orElse (event_body event) "{}") = inr original ->
         postFault cloud id = None ->
         AwsSam.Default.handler cloud event w
         = (Some (Fulfilled
                    (AwsSam.Utils.createResponse cloud 200
                       (JObject [ ("message", JString "Message processed") ]) [])),
            record (PostToConnectionCommand id
                      (AwsSam.Utils.encodeMessage cloud
                         (AwsSam.Default.echo cloud original id))) w))
  /\ (forall original,
         JSON_parse cloud (orElse (event_body event) "{}") = inr original ->
         postFault cloud id = None ->
         Serverless.handler cloud event w
         = (Some (Fulfilled
                    (Serverless.plainResponse cloud 200
                       (JObject [ ("message", JString "Message processed") ]))),
            record (PostToConnectionCommand id
                      (JSON_stringify cloud
                         (Serverless.echo cloud
                            (randomUUID_at cloud (uuidsDrawn w)))))
              {| table := table w; commands := commands w;
                 uuidsDrawn := S (uuidsDrawn w) |}))
  /\ (forall e,
         JSON_parse cloud (orElse (event_body event) "{}") = inl e ->
         (exists response,
             AwsSam.Default.handler cloud event w = (Some (Fulfilled response), w)
             /\ statusCode response = 500%Z)
         /\ (exists response,
                Serverless.handler cloud event w = (Some (Fulfilled response), w)
                /\ statusCode response = 500%Z)).
Proof.
  intros Hc Hid Hne.
  destruct (truthy_connectionId id Hne) as [Ht Ho].
  split; [|split; [|split]].
  - destruct (event_body event) as [text|]; simpl; [|reflexivity].
    destruct (text =? EmptyString)%string; [reflexivity|discriminate].
  - intros original Hparse Hpost.
    unfold AwsSam.Default.handler. rewrite Hid, Ht, Ho. cbn [negb].
    unfold try_catch.
    rewrite (await_fulfilled _ _ w _ _ (validateEnvironment_run cloud w Hc)).
    unfold parse. rewrite Hparse.
    unfold await, resolve, send_PostToConnection. rewrite Hpost. reflexivity.
  - intros original Hparse Hpost.
    unfold Serverless.handler. rewrite Hid, Ht, Ho. cbn [negb].
    unfold try_catch, parse. rewrite Hparse.
    unfold await, resolve, randomUUID, send_PostToConnection.
    rewrite Hpost. reflexivity.
  - intros e Hparse. split.
    + unfold AwsSam.Default.handler. rewrite Hid, Ht, Ho. cbn [negb].
      unfold try_catch.
      rewrite (await_fulfilled _ _ w _ _ (validateEnvironment_run cloud w Hc)).
      unfold parse. rewrite Hparse. unfold await, throw.
      unfold AwsSam.Default.onError.
      destruct (isConfigurationError e); eexists; split; reflexivity.
    + unfold Serverless.handler. rewrite Hid, Ht, Ho. cbn [negb].
      unfold try_catch, parse. rewrite Hparse. unfold await, throw.
      eexists; split; reflexivity.
Qed.

Lemma default_handler_echoes_or_fails_witness :
  AwsSam.Default.handler Scenario.healthy (Scenario.inbound "c9" None)
    (Scenario.worldOf ["c9"])
  = (Some (Fulfilled
             (AwsSam.Utils.createResponse Scenario.healthy 200
                (JObject [ ("message", JString "Message processed") ]) [])),
     record (PostToConnectionCommand "c9"
               (AwsSam.Utils.encodeMessage Scenario.healthy
                  (AwsSam.Default.echo Scenario.healthy (JObject []) "c9")))
       (Scenario.worldOf ["c9"]))
  /\ (exists response,
         Serverless.handler Scenario.healthy
           (Scenario.inbound "c9" (Some "not json")) (Scenario.worldOf ["c9"])
         = (Some (Fulfilled response), Scenario.worldOf ["c9"])
         /\ statusCode response = 500%Z).
Proof.
  split.
  - destruct (default_handler_echoes_or_fails Scenario.healthy
                (Scenario.inbound "c9" None) "c9" (Scenario.worldOf ["c9"]))
      as (_ & H & _).
    + reflexivity.
    + reflexivity.
    + discriminate.
    + apply (H (JObject [])); reflexivity.
  - destruct (default_handler_echoes_or_fails Scenario.healthy
                (Scenario.inbound "c9" (Some "not json")) "c9"
                (Scenario.worldOf ["c9"]))
      as (_ & _ & _ & H).
    + reflexivity.
    + reflexivity.
    + discriminate.
    + apply (H Scenario.syntaxError). reflexivity.
Defined.

(* ================================================================== *)
(** * The envelope *)
(* ================================================================== *)

Section ServerlessFacts.

Variable cloud : Cloud.
Variable tableName messageData : string.

(** The callback settles after one push; it draws no identifier. *)
Lemma pushOne_run item w :
  exists r w1,
    Serverless.pushOne cloud tableName messageData item w = (Some r, w1)
    /\ pushes w1
       = pushes w ++ [PostToConnectionCommand (connectionId item) messageData]
    /\ uuidsDrawn w1 = uuidsDrawn w.
Proof.
  unfold Serverless.pushOne, try_catch, send_PostToConnection.
  destruct (postFault cloud (connectionId item)) as [e|].
  - destruct (Serverless.isGone e).
    + unfold send_Delete.
      destruct (deleteFault cloud (connectionId item)); do 2 eexists;
        (split; [reflexivity|]); split; try reflexivity;
        rewrite ?pushes_withTable, pushes_record_other by reflexivity;
        apply pushes_record_post.
    + do 2 eexists. split; [reflexivity|]. split; [|reflexivity].
      apply pushes_record_post.
  - do 2 eexists. split; [reflexivity|]. split; [|reflexivity].
    apply pushes_record_post.
Qed.

Lemma allSettled_pushOne items w :
  exists rs w1,
    Promise_allSettled (map (Serverless.pushOne cloud tableName messageData) items) w
    = (Some (Fulfilled rs), w1)
    /\ pushes w1 = pushes w ++ pushesTo messageData items
    /\ uuidsDrawn w1 = uuidsDrawn w.
Proof.
  revert w. induction items as [|item items IH]; intros w.
  - do 2 eexists. split; [reflexivity|]. split; [|reflexivity].
    simpl. now rewrite app_nil_r.
  - destruct (pushOne_run item w) as (r & w1 & Hrun & Hp & Hu).
    destruct (IH w1) as (rs & w2 & Hrest & Hp2 & Hu2).
    exists (r :: rs), w2. cbn [map Promise_allSettled].
    rewrite Hrun, Hrest. split; [reflexivity|]. split.
    + rewrite Hp2, Hp, <- app_assoc. reflexivity.
    + congruence.
Qed.

Lemma Promise_all_pushOne items w :
  exists r w1,
    Promise_all (map (Serverless.pushOne cloud tableName messageData) items) w
    = (Some r, w1)
    /\ pushes w1 = pushes w ++ pushesTo messageData items
    /\ uuidsDrawn w1 = uuidsDrawn w.
Proof.
  destruct (allSettled_pushOne items w) as (rs & w1 & Hrun & Hp & Hu).
  unfold Promise_all. rewrite (await_fulfilled _ _ w _ _ Hrun).
  destruct (firstRejection rs); do 2 eexists; (split; [reflexivity|]); auto.
Qed.

End ServerlessFacts.

Lemma idOrRandom_run cloud id w :
  Serverless.idOrRandom cloud id w
  = (Some (Fulfilled (nullish id (JString (randomUUID_at cloud (uuidsDrawn w))))),
     {| table := table w; commands := commands w;
        uuidsDrawn := uuidsDrawn w + (if omitted id then 1 else 0) |}).
Proof.
  destruct w as [t c u].
  destruct id as [[]|]; simpl; unfold resolve, await, randomUUID; simpl;
    rewrite ?Nat.add_0_r, ?Nat.add_1_r; reflexivity.
Qed.

Lemma tally_injective i j : Scenario.tally i = Scenario.tally j -> i = j.
Proof.
  revert j. induction i as [|i IH]; destruct j as [|j]; simpl; intros H;
    try discriminate; [reflexivity|].
  inversion H. f_equal. now apply IH.
Qed.

Lemma uuidOf_injective i j : Scenario.uuidOf i = Scenario.uuidOf j -> i = j.
Proof.
  unfold Scenario.uuidOf. simpl. intros H. inversion H. now apply tally_injective.
Qed.

(** C5 as stated fails for the aws-sam handler: its envelope is
    [{ type, data, timestamp }]; the [id] and [source] of the request are
    dropped and no identifier is generated. *)
Lemma awsSam_envelope_has_no_id_nor_source :
  let r := AwsSam.Broadcast.handler Scenario.healthy
             (Scenario.post (Scenario.render Scenario.requestWithId))
             (Scenario.worldOf ["c1"]) in
  field Scenario.requestWithId "id" = Some (JString "evt-1")
  /\ field Scenario.requestWithId "source" = Some (JString "notes")
  /\ pushes (snd r)
     = [ PostToConnectionCommand "c1"
           (Scenario.render
              (JObject [ ("type", JString "test");
                         ("data", JObject [ ("x", JNumber 1) ]);
                         ("timestamp", JString "2024-01-01T00:00:00.000Z") ])) ]
  /\ uuidsDrawn (snd r) = 0.
Proof. vm_compute. repeat split. Qed.

(** C5 (amended): in the serverless broadcast endpoint the envelope pushed
    to every scanned connection carries [id ?? randomUUID()] and
    [source ?? 'backend']: a request without [id] gets the next identifier
    of the generator (distinct from the one of any later call, as long as the
    generator does not repeat itself), a request without [source] gets
    'backend', and a supplied, non-null [id] or [source] is used as it is.
    The envelope of the aws-sam handler has neither property. *)
Theorem serverless_envelope_id_and_source cloud event requestBody w :
  truthyString (env_DYNAMODB_CONNECTIONS_TABLE (process_env cloud)) = true ->
  parsedBody cloud event = Some requestBody ->
  requestBody <> JNull ->
  scanFault cloud None = None ->
  let id := nullish (field requestBody "id")
              (JString (randomUUID_at cloud (uuidsDrawn w))) in
  let source := nullish (field requestBody "source") (JString "backend") in
  let envelope :=
    Serverless.webSocketMessage cloud
      (field requestBody "type") (field requestBody "data")
      (field requestBody "version") (field requestBody "source")
      (field requestBody "meta") id in
  exists r w1,
    Serverless.broadcastToAll cloud event w = (Some r, w1)
    /\ pushes w1
       = pushes w
         ++ pushesTo (JSON_stringify cloud envelope)
              (map project (firstn (pageSize cloud) (table w)))
    /\ field envelope "id" = Some id
    /\ field envelope "source" = Some source
    /\ uuidsDrawn w1
       = uuidsDrawn w + (if omitted (field requestBody "id") then 1 else 0)
    /\ (field requestBody "id" = None ->
        id = JString (randomUUID_at cloud (uuidsDrawn w))
        /\ ((forall i j, randomUUID_at cloud i = randomUUID_at cloud j -> i = j) ->
            forall later, uuidsDrawn w1 <= uuidsDrawn later ->
                          JString (randomUUID_at cloud (uuidsDrawn later)) <> id))
    /\ (field requestBody "source" = None -> source = JString "backend")
    /\ (forall v, field requestBody "id" = Some v -> v <> JNull -> id = v)
    /\ (forall v, field requestBody "source" = Some v -> v <> JNull -> source = v)
    /\ (forall type data,
           field (AwsSam.Broadcast.webSocketMessage cloud type data) "id" = None
           /\ field (AwsSam.Broadcast.webSocketMessage cloud type data) "source"
              = None).
Proof.
  intros Htable Hp Hn Hscan id source envelope.
  unfold parsedBody in Hp.
  destruct (event_body event) as [text|] eqn:Hbody; [|discriminate].
  destruct (text =? EmptyString)%string eqn:Htext; [discriminate|].
  destruct (JSON_parse cloud text) as [|parsed] eqn:Hparse; [discriminate|].
  inversion Hp; subst parsed; clear Hp.
  set (name := orElse (env_DYNAMODB_CONNECTIONS_TABLE (process_env cloud)) EmptyString).
  set (items := map project (firstn (pageSize cloud) (table w))).
  set (w0 := {| table := table w;
                commands := commands w ++ [ScanCommand name None];
                uuidsDrawn := uuidsDrawn w
                              + (if omitted (field requestBody "id") then 1 else 0) |}).
  destruct (Promise_all_pushOne cloud name (JSON_stringify cloud envelope) items w0)
    as (r & w1 & Hall & Hpushes & Hu).
  assert (Hrun : exists r', Serverless.broadcastToAll cloud event w = (Some r', w1)).
  { unfold Serverless.broadcastToAll. rewrite Htable. cbn [negb].
    fold name. unfold try_catch. rewrite Hbody. cbn [truthyString orElse].
    rewrite Htext. cbn [negb]. unfold parse. rewrite Hparse.
    unfold await at 1. unfold resolve at 1.
    rewrite !(await_fulfilled _ _ w _ _ (getProp_field _ _ w Hn)).
    unfold await at 1. unfold send_Scan. rewrite Hscan.
    unfold await at 1. rewrite idOrRandom_run.
    unfold Serverless.itemsOrEmpty, scanPage. cbn [Items record table commands uuidsDrawn].
    fold id. fold envelope. fold items. fold w0.
    unfold await. rewrite Hall.
    destruct r as [vs|e]; eexists; reflexivity. }
  destruct Hrun as (r' & Hrun).
  exists r', w1. split; [exact Hrun|].
  split; [|split; [|split; [|split; [|split; [|split; [|split; [|split]]]]]]].
  - rewrite Hpushes. unfold w0, pushes. cbn [commands].
    rewrite filter_app. cbn. now rewrite app_nil_r.
  - unfold envelope, Serverless.webSocketMessage.
    destruct (field requestBody "type"); reflexivity.
  - unfold envelope, Serverless.webSocketMessage.
    destruct (field requestBody "type"); reflexivity.
  - rewrite Hu. reflexivity.
  - intros Hid. unfold id. rewrite Hid. split; [reflexivity|].
    intros Hinj later Hlater Heq. inversion Heq as [Heq'].
    apply Hinj in Heq'. rewrite Hu in Hlater. unfold w0 in Hlater.
    cbn [uuidsDrawn] in Hlater. rewrite Hid in Hlater. cbn in Hlater. lia.
  - intros Hs. unfold source. now rewrite Hs.
  - intros v Hv Hnn. unfold id. rewrite Hv. destruct v; try reflexivity.
    contradiction.
  - intros v Hv Hnn. unfold source. rewrite Hv. destruct v; try reflexivity.
    contradiction.
  - intros type data. unfold AwsSam.Broadcast.webSocketMessage.
    destruct type, data; split; reflexivity.
Qed.

Lemma serverless_envelope_id_and_source_witness :
  exists r w1,
    Serverless.broadcastToAll Scenario.healthy
      (Scenario.post (Scenario.render Scenario.testRequest))
      (Scenario.worldOf ["c1"; "c2"])
    = (Some r, w1)
    /\ recipients w1 = ["c1"; "c2"]
    /\ uuidsDrawn w1 = 1
    /\ JString (Scenario.uuidOf (uuidsDrawn w1)) <> JString (Scenario.uuidOf 0).
Proof.
  destruct (serverless_envelope_id_and_source Scenario.healthy
              (Scenario.post (Scenario.render Scenario.testRequest))
              Scenario.testRequest (Scenario.worldOf ["c1"; "c2"]))
    as (r & w1 & Hrun & _ & _ & _ & Hu & Hid & _).
  - reflexivity.
  - reflexivity.
  - discriminate.
  - reflexivity.
  - exists r, w1. split; [exact Hrun|].
    split; [|split; [exact Hu|]].
    + vm_compute in Hrun. inversion Hrun. reflexivity.
    + destruct (Hid eq_refl) as [_ Hfresh].
      apply (Hfresh uuidOf_injective w1). apply Nat.le_refl.
Defined.

(* ================================================================== *)
(** * Further scenarios of the specification *)
(* ================================================================== *)

(** Scenario B: a broadcast over an empty table completes with three zero
    counters and without a push. *)
Example scenario_B_empty_table :
  let r := AwsSam.Broadcast.handler Scenario.healthy
             (Scenario.post (Scenario.render Scenario.testRequest))
             (Scenario.worldOf []) in
  fst r = Some (Fulfilled (broadcastCompleted Scenario.healthy emptyTally))
  /\ pushes (snd r) = [].
Proof. vm_compute. split; reflexivity. Qed.

(** Scenario C: Connect without a connection id answers 400 and writes
    nothing. *)
Example scenario_C_connect_without_id :
  let r := AwsSam.Connect.handler Scenario.healthy
             {| event_body := None; requestContext_connectionId := None |}
             (Scenario.worldOf []) in
  Scenario.statusOf r = Some 400%Z /\ snd r = Scenario.worldOf [].
Proof. vm_compute. split; reflexivity. Qed.

(** Connect stores the record; two Disconnects in a row both answer 200 and
    leave no record. *)
Example connect_then_disconnect_twice :
  let event := Scenario.inbound "c1" None in
  let r1 := AwsSam.Connect.handler Scenario.healthy event (Scenario.worldOf []) in
  let r2 := AwsSam.Disconnect.handler Scenario.healthy event (snd r1) in
  let r3 := AwsSam.Disconnect.handler Scenario.healthy event (snd r2) in
  keys (table (snd r1)) = ["c1"]
  /\ Scenario.statusOf r2 = Some 200%Z
  /\ Scenario.statusOf r3 = Some 200%Z
  /\ lookupConnection "c1" (table (snd r3)) = None.
Proof. vm_compute. repeat split. Qed.

(** Without the table name every aws-sam handler answers 500 before it
    sends a command. *)
Example unconfigured_broadcast :
  let r := AwsSam.Broadcast.handler Scenario.unconfigured
             (Scenario.post (Scenario.render Scenario.testRequest))
             (Scenario.worldOf ["c1"]) in
  fst r = Some (Fulfilled
                  (AwsSam.Utils.createErrorResponse Scenario.unconfigured 500
                     "Server configuration error" None None))
  /\ snd r = Scenario.worldOf ["c1"].
Proof. vm_compute. split; reflexivity. Qed.

(* ================================================================== *)
(** * Every invocation is answered *)
(* ================================================================== *)

Lemma validateEnvironment_cases cloud w :
  (configured cloud = true
   /\ AwsSam.Utils.validateEnvironment cloud w = (Some (Fulfilled (configOf cloud)), w))
  \/ (configured cloud = false
      /\ exists e, AwsSam.Utils.validateEnvironment cloud w = (Some (Rejected e), w)
                   /\ isConfigurationError e = true).
Proof.
  destruct (configured cloud) eqn:Hc.
  - left. split; [reflexivity|]. now apply validateEnvironment_run.
  - right. split; [reflexivity|]. now apply validateEnvironment_throws.
Qed.

Lemma answered_200 r : statusCode r = 200%Z -> answered r.
Proof. unfold answered. auto. Qed.

Lemma answered_400 r : statusCode r = 400%Z -> answered r.
Proof. unfold answered. auto. Qed.

Lemma answered_500 r : statusCode r = 500%Z -> answered r.
Proof. unfold answered. auto. Qed.

Create HintDb handlers.

#[local] Hint Resolve answered_200 answered_400 answered_500 : handlers.

(** Closes a goal [exists response w1, run = (Some (Fulfilled response), w1)
    /\ answered response] once the run has been computed. *)
Ltac answer :=
  do 2 eexists; split; [reflexivity|]; auto with handlers.

(** X1: the Connect, Disconnect and Default handlers of both variants let no
    exception escape and do not hang: for every event and every behaviour of
    DynamoDB and of the transport they fulfil with a response whose status
    is 200, 400 or 500. *)
Theorem lifecycle_handlers_always_answer cloud event w :
  (exists response w1,
      AwsSam.Connect.handler cloud event w = (Some (Fulfilled response), w1)
      /\ answered response)
  /\ (exists response w1,
         AwsSam.Disconnect.handler cloud event w = (Some (Fulfilled response), w1)
         /\ answered response)
  /\ (exists response w1,
         AwsSam.Default.handler cloud event w = (Some (Fulfilled response), w1)
         /\ answered response)
  /\ (exists response w1,
         Serverless.Connect.handler cloud event w = (Some (Fulfilled response), w1)
         /\ answered response)
  /\ (exists response w1,
         Serverless.Disconnect.handler cloud event w = (Some (Fulfilled response), w1)
         /\ answered response)
  /\ (exists response w1,
         Serverless.handler cloud event w = (Some (Fulfilled response), w1)
         /\ answered response).
Proof.
  repeat split.
  - unfold AwsSam.Connect.handler.
    destruct (truthyString (requestContext_connectionId event)); cbn [negb];
      [|answer].
    unfold try_catch, await.
    destruct (validateEnvironment_cases cloud w) as [[_ ->]|[_ (e & -> & He)]].
    + unfold send_Put. cbn [connectionId].
      destruct (putFault cloud _) as [e|]; [|answer].
      unfold AwsSam.Connect.onError. destruct (isConfigurationError e); answer.
    + unfold AwsSam.Connect.onError. rewrite He. answer.
  - unfold AwsSam.Disconnect.handler.
    destruct (truthyString (requestContext_connectionId event)); cbn [negb];
      [|answer].
    unfold try_catch, await.
    destruct (validateEnvironment_cases cloud w) as [[_ ->]|[_ (e & -> & He)]].
    + unfold send_Delete.
      destruct (deleteFault cloud _) as [e|]; [|answer].
      unfold AwsSam.Disconnect.onError. destruct (isConfigurationError e); answer.
    + unfold AwsSam.Disconnect.onError. rewrite He. answer.
  - unfold AwsSam.Default.handler.
    destruct (truthyString (requestContext_connectionId event)); cbn [negb];
      [|answer].
    unfold try_catch, await.
    destruct (validateEnvironment_cases cloud w) as [[_ ->]|[_ (e & -> & He)]].
    + unfold parse.
      destruct (JSON_parse cloud _) as [e|original].
      * unfold throw, AwsSam.Default.onError.
        destruct (isConfigurationError e); answer.
      * unfold resolve, send_PostToConnection.
        destruct (postFault cloud _) as [e|]; [|answer].
        unfold AwsSam.Default.onError. destruct (isConfigurationError e); answer.
    + unfold AwsSam.Default.onError. rewrite He. answer.
  - unfold Serverless.Connect.handler.
    destruct (truthyString (requestContext_connectionId event)); cbn [negb];
      [|answer].
    destruct (truthyString (env_DYNAMODB_CONNECTIONS_TABLE _)); cbn [negb];
      [|answer].
    unfold try_catch, await, send_Put. cbn [connectionId].
    destruct (putFault cloud _); answer.
  - unfold Serverless.Disconnect.handler.
    destruct (truthyString (requestContext_connectionId event)); cbn [negb];
      [|answer].
    destruct (truthyString (env_DYNAMODB_CONNECTIONS_TABLE _)); cbn [negb];
      [|answer].
    unfold try_catch, await, send_Delete.
    destruct (deleteFault cloud _); answer.
  - unfold Serverless.handler.
    destruct (truthyString (requestContext_connectionId event)); cbn [negb];
      [|answer].
    unfold try_catch, await, parse.
    destruct (JSON_parse cloud _) as [e|original]; [answer|].
    unfold resolve, randomUUID, send_PostToConnection.
    destruct (postFault cloud _); answer.
Qed.

Lemma corsHeaders_createCorsResponse cloud status payload :
  corsHeaders cloud
    (AwsSam.Utils.createCorsResponse cloud status payload
       (env_CORS_ORIGIN (process_env cloud))).
Proof. unfold corsHeaders. simpl. auto. Qed.

Lemma broadcast_onError_answers cloud e w :
  exists response,
    AwsSam.Broadcast.onError cloud e w = (Some (Fulfilled response), w)
    /\ statusCode response = 500%Z /\ corsHeaders cloud response.
Proof.
  unfold AwsSam.Broadcast.onError.
  destruct (isConfigurationError e); eexists; (split; [reflexivity|]);
    (split; [reflexivity|]); apply corsHeaders_createCorsResponse.
Qed.

(** X2: the broadcast handler lets no exception escape: whenever an
    invocation settles, it is fulfilled with a response whose status is 200,
    400 or 500 and which carries the JSON content type and the allowed
    origin of the deployment (the configured CORS origin, or '*'). *)
Theorem broadcast_handler_never_rejects cloud event w r w1 :
  AwsSam.Broadcast.handler cloud event w = (Some r, w1) ->
  exists response,
    r = Fulfilled response /\ answered response /\ corsHeaders cloud response.
Proof.
  unfold AwsSam.Broadcast.handler, try_catch, await.
  destruct (validateEnvironment_cases cloud w) as [[_ ->]|[_ (e & -> & _)]].
  - change (CORS_ORIGIN (configOf cloud)) with (env_CORS_ORIGIN (process_env cloud)).
    assert (Hdone : forall status message,
               answered (AwsSam.Utils.createErrorResponse cloud status message None
                           (env_CORS_ORIGIN (process_env cloud))) ->
               (Some (Fulfilled
                        (AwsSam.Utils.createErrorResponse cloud status message None
                           (env_CORS_ORIGIN (process_env cloud)))), w)
               = (Some r, w1) ->
               exists response,
                 r = Fulfilled response /\ answered response
                 /\ corsHeaders cloud response).
    { intros status message Ha H. inversion H; subst. eexists.
      split; [reflexivity|]. split; [exact Ha|].
      apply corsHeaders_createCorsResponse. }
    destruct (event_body event) as [text|];
      [|apply Hdone; auto with handlers].
    destruct (text =? EmptyString)%string; [apply Hdone; auto with handlers|].
    destruct (JSON_parse cloud text) as [e|requestBody];
      [apply Hdone; auto with handlers|].
    unfold AwsSam.Broadcast.broadcastParsed, await.
    change (CORS_ORIGIN (configOf cloud)) with (env_CORS_ORIGIN (process_env cloud)).
    destruct (getProp requestBody "type" w) as [[[type|e]|] w2] eqn:Htype.
    + assert (w2 = w) by (destruct requestBody; inversion Htype; reflexivity).
      subst w2.
      destruct (getProp requestBody "data" w) as [[[data|e]|] w2] eqn:Hdata.
      * assert (w2 = w) by (destruct requestBody; inversion Hdata; reflexivity).
        subst w2.
        destruct (negb (truthyValue type) || negb (truthyValue data));
          [apply Hdone; auto with handlers|].
        destruct (AwsSam.BroadcastService.broadcastToAll cloud _ _ w)
          as [[[results|e]|] w3].
        -- intros H. inversion H; subst. eexists. split; [reflexivity|].
           split; [auto with handlers|]. apply corsHeaders_createCorsResponse.
        -- destruct (broadcast_onError_answers cloud e w3) as (resp & -> & Hs & Hh).
           intros H. inversion H; subst. eauto with handlers.
        -- discriminate.
      * destruct (broadcast_onError_answers cloud e w2) as (resp & -> & Hs & Hh).
        intros H. inversion H; subst. eauto with handlers.
      * discriminate.
    + destruct (broadcast_onError_answers cloud e w2) as (resp & -> & Hs & Hh).
      intros H. inversion H; subst. eauto with handlers.
    + discriminate.
  - destruct (broadcast_onError_answers cloud e w) as (resp & -> & Hs & Hh).
    intros H. inversion H; subst. eauto with handlers.
Qed.

Lemma broadcast_handler_never_rejects_witness :
  exists response,
    Some (Fulfilled
            (broadcastCompleted Scenario.scenarioA
               {| AwsSam.BroadcastService.sent := 1;
                  AwsSam.BroadcastService.failed := 0;
                  AwsSam.BroadcastService.stale := 2 |}))
    = Some (Fulfilled response)
    /\ answered response /\ corsHeaders Scenario.scenarioA response.
Proof.
  destruct (broadcast_handler_never_rejects Scenario.scenarioA
              (Scenario.post (Scenario.render Scenario.testRequest))
              (Scenario.worldOf ["c1"; "c2"; "c3"])
              (Fulfilled
                 (broadcastCompleted Scenario.scenarioA
                    {| AwsSam.BroadcastService.sent := 1;
                       AwsSam.BroadcastService.failed := 0;
                       AwsSam.BroadcastService.stale := 2 |}))
              (snd (AwsSam.Broadcast.handler Scenario.scenarioA
                      (Scenario.post (Scenario.render Scenario.testRequest))
                      (Scenario.worldOf ["c1"; "c2"; "c3"]))))
    as (response & Hr & Ha & Hh).
  - vm_compute. reflexivity.
  - exists response. split; [now rewrite Hr|]. split; assumption.
Defined.

(* ================================================================== *)
(** * Requests that are turned away *)
(* ================================================================== *)

(** X3: an invocation without a connection id (absent or empty) is answered
    400 by the Connect, Disconnect and Default handlers of both variants,
    before anything else is looked at: no command is sent and the world is
    left as it was, whatever the configuration. *)
Theorem missing_connection_id_is_turned_away cloud event w :
  truthyString (requestContext_connectionId event) = false ->
  let refused run :=
    exists response,
      run = (Some (Fulfilled response), w) /\ statusCode response = 400%Z in
  refused (AwsSam.Connect.handler cloud event w)
  /\ refused (AwsSam.Disconnect.handler cloud event w)
  /\ refused (AwsSam.Default.handler cloud event w)
  /\ refused (Serverless.Connect.handler cloud event w)
  /\ refused (Serverless.Disconnect.handler cloud event w)
  /\ refused (Serverless.handler cloud event w).
Proof.
  intros Hid refused. unfold refused.
  unfold AwsSam.Connect.handler, AwsSam.Disconnect.handler, AwsSam.Default.handler,
    Serverless.Connect.handler, Serverless.Disconnect.handler, Serverless.handler.
  rewrite Hid. cbn [negb].
  repeat split; eexists; split; reflexivity.
Qed.

Lemma missing_connection_id_is_turned_away_witness :
  exists response,
    AwsSam.Connect.handler Scenario.healthy (Scenario.post "hello")
      (Scenario.worldOf ["c1"])
    = (Some (Fulfilled response), Scenario.worldOf ["c1"])
    /\ statusCode response = 400%Z.
Proof.
  destruct (missing_connection_id_is_turned_away Scenario.healthy
              (Scenario.post "hello") (Scenario.worldOf ["c1"]))
    as (H & _).
  - reflexivity.
  - exact H.
Defined.

(** X4: when one of the two required environment variables is missing,
    every aws-sam handler that gets past its connection-id check answers 500
    'Server configuration error' (the error thrown by [validateEnvironment]
    is recognised by its message) and sends no command. *)
Theorem unconfigured_handlers_answer_500 cloud event w :
  configured cloud = false ->
  AwsSam.Broadcast.handler cloud event w
  = (Some (Fulfilled
             (AwsSam.Utils.createErrorResponse cloud 500
                "Server configuration error" None
                (env_CORS_ORIGIN (process_env cloud)))), w)
  /\ (truthyString (requestContext_connectionId event) = true ->
      let refused :=
        (Some (Fulfilled
                 (AwsSam.Utils.createErrorResponse cloud 500
                    "Server configuration error" None None)), w) in
      AwsSam.Connect.handler cloud event w = refused
      /\ AwsSam.Disconnect.handler cloud event w = refused
      /\ AwsSam.Default.handler cloud event w = refused).
Proof.
  intros Hc.
  destruct (validateEnvironment_throws cloud w Hc) as (e & Hthrow & He).
  split.
  - unfold AwsSam.Broadcast.handler, try_catch.
    rewrite (await_rejected _ _ w e w Hthrow).
    unfold AwsSam.Broadcast.onError. now rewrite He.
  - intros Hid refused. unfold refused.
    unfold AwsSam.Connect.handler, AwsSam.Disconnect.handler, AwsSam.Default.handler.
    rewrite Hid. cbn [negb]. unfold try_catch.
    rewrite !(await_rejected _ _ w e w Hthrow).
    unfold AwsSam.Connect.onError, AwsSam.Disconnect.onError, AwsSam.Default.onError.
    rewrite He. auto.
Qed.

Lemma unconfigured_handlers_answer_500_witness :
  AwsSam.Connect.handler Scenario.unconfigured (Scenario.inbound "c1" None)
    (Scenario.worldOf [])
  = (Some (Fulfilled
             (AwsSam.Utils.createErrorResponse Scenario.unconfigured 500
                "Server configuration error" None None)), Scenario.worldOf []).
Proof.
  destruct (unconfigured_handlers_answer_500 Scenario.unconfigured
              (Scenario.inbound "c1" None) (Scenario.worldOf []))
    as (_ & H).
  - reflexivity.
  - destruct H as (H & _); [reflexivity|exact H].
Defined.

(** X5: with the environment set, the broadcast handler answers a missing or
    empty body with 400 'Missing request body' and a body that does not
    parse with 400 'Invalid JSON in request body'; a body that parses to
    [null] passes both checks and fails on the property read, which the
    outer catch turns into 500 'Broadcast failed'.  In the three cases no
    command is sent. *)
Theorem broadcast_body_edge_cases cloud event w :
  configured cloud = true ->
  let origin := env_CORS_ORIGIN (process_env cloud) in
  (truthyString (event_body event) = false ->
   AwsSam.Broadcast.handler cloud event w
   = (Some (Fulfilled
              (AwsSam.Utils.createErrorResponse cloud 400
                 "Missing request body" None origin)), w))
  /\ (forall text e,
         event_body event = Some text -> text <> EmptyString ->
         JSON_parse cloud text = inl e ->
         AwsSam.Broadcast.handler cloud event w
         = (Some (Fulfilled
                    (AwsSam.Utils.createErrorResponse cloud 400
                       "Invalid JSON in request body" None origin)), w))
  /\ (parsedBody cloud event = Some JNull ->
      exists detail,
        AwsSam.Broadcast.handler cloud event w
        = (Some (Fulfilled
                   (AwsSam.Utils.createErrorResponse cloud 500
                      "Broadcast failed" (Some detail) origin)), w)).
Proof.
  intros Hc origin. split; [|split].
  - intros Hbody. unfold AwsSam.Broadcast.handler, try_catch.
    rewrite (await_fulfilled _ _ w _ _ (validateEnvironment_run cloud w Hc)).
    destruct (event_body event) as [text|]; [|reflexivity].
    simpl in Hbody. apply negb_false_iff in Hbody. now rewrite Hbody.
  - intros text e Hbody Hne Hparse.
    unfold AwsSam.Broadcast.handler, try_catch.
    rewrite (await_fulfilled _ _ w _ _ (validateEnvironment_run cloud w Hc)).
    rewrite Hbody. apply String.eqb_neq in Hne. now rewrite Hne, Hparse.
  - intros Hp. rewrite (handler_parsed cloud event JNull w Hc Hp).
    eexists. reflexivity.
Qed.

Lemma broadcast_body_edge_cases_witness :
  AwsSam.Broadcast.handler Scenario.healthy (Scenario.post "not json")
    (Scenario.worldOf ["c1"])
  = (Some (Fulfilled
             (AwsSam.Utils.createErrorResponse Scenario.healthy 400
                "Invalid JSON in request body" None
                (Some "http://localhost:3000"))), Scenario.worldOf ["c1"])
  /\ exists detail,
       AwsSam.Broadcast.handler Scenario.parsingNull (Scenario.post "null")
         (Scenario.worldOf ["c1"])
       = (Some (Fulfilled
                  (AwsSam.Utils.createErrorResponse Scenario.parsingNull 500
                     "Broadcast failed" (Some detail)
                     (Some "http://localhost:3000"))), Scenario.worldOf ["c1"]).
Proof.
  split.
  - destruct (broadcast_body_edge_cases Scenario.healthy (Scenario.post "not json")
                (Scenario.worldOf ["c1"]) eq_refl)
      as (_ & H & _).
    apply (H "not json" Scenario.syntaxError);
      [reflexivity|discriminate|reflexivity].
  - destruct (broadcast_body_edge_cases Scenario.parsingNull (Scenario.post "null")
                (Scenario.worldOf ["c1"]) eq_refl)
      as (_ & _ & H).
    apply H. reflexivity.
Defined.

(* ================================================================== *)
(** * Connect and Disconnect *)
(* ================================================================== *)

Lemma keys_putItem_present item items :
  In (connectionId item) (keys items) -> keys (putItem item items) = keys items.
Proof.
  induction items as [|x items IH]; intros Hin; [contradiction|].
  simpl. destruct (connectionId x =? connectionId item)%string eqn:E.
  - apply String.eqb_eq in E. simpl. now rewrite E.
  - simpl. f_equal. apply IH. destruct Hin as [Hin|Hin]; [|assumption].
    apply String.eqb_neq in E. contradiction.
Qed.

Lemma keys_putItem_absent item items :
  ~ In (connectionId item) (keys items) ->
  keys (putItem item items) = keys items ++ [connectionId item].
Proof.
  induction items as [|x items IH]; intros Hnot; [reflexivity|].
  simpl. destruct (connectionId x =? connectionId item)%string eqn:E.
  - apply String.eqb_eq in E. exfalso. apply Hnot. now left.
  - simpl. f_equal. apply IH. intros Hin. apply Hnot. now right.
Qed.

Lemma NoDup_putItem item items :
  NoDup (keys items) -> NoDup (keys (putItem item items)).
Proof.
  intros Hnd.
  destruct (in_dec string_dec (connectionId item) (keys items)) as [Hin|Hnot].
  - now rewrite keys_putItem_present.
  - rewrite keys_putItem_absent by assumption.
    apply NoDup_app; [assumption|repeat constructor; auto|].
    intros k Hk [<-|[]]. contradiction.
Qed.

Lemma lookupConnection_putItem item items :
  lookupConnection (connectionId item) (putItem item items) = Some item.
Proof.
  unfold lookupConnection.
  induction items as [|x items IH]; simpl.
  - now rewrite String.eqb_refl.
  - destruct (connectionId x =? connectionId item)%string eqn:E; simpl.
    + now rewrite String.eqb_refl.
    + now rewrite E.
Qed.


Lemma lookupConnection_deleteKey_other k id items :
  k <> id ->
  lookupConnection k (deleteKey id items) = lookupConnection k items.
Proof.
  intros Hne. unfold lookupConnection, deleteKey.
  induction items as [|x items IH]; simpl; [reflexivity|].
  destruct (connectionId x =? id)%string eqn:E; simpl.
  - apply String.eqb_eq in E.
    assert (Hx : (connectionId x =? k)%string = false)
      by (apply String.eqb_neq; congruence).
    now rewrite Hx.
  - destruct (connectionId x =? k)%string; [reflexivity|exact IH].
Qed.

Lemma lookupConnection_deleteKey id items :
  lookupConnection id (deleteKey id items) = None.
Proof.
  apply lookupConnection_None. rewrite In_keys_deleteKey. tauto.
Qed.

Lemma deleteKey_absent id items :
  ~ In id (keys items) -> deleteKey id items = items.
Proof. apply others_absent. Qed.

Lemma deleteKey_putItem_fresh item items :
  ~ In (connectionId item) (keys items) ->
  deleteKey (connectionId item) (putItem item items) = items.
Proof.
  induction items as [|x items IH]; intros Hnot; simpl.
  - now rewrite String.eqb_refl.
  - destruct (connectionId x =? connectionId item)%string eqn:E.
    + apply String.eqb_eq in E. exfalso. apply Hnot. now left.
    + simpl. rewrite E. simpl. f_equal. apply IH.
      intros Hin. apply Hnot. now right.
Qed.


Section LifecycleFacts.

Variable cloud : Cloud.
Variable event : APIGatewayProxyEvent.
Variable id : string.

Hypothesis is_configured : configured cloud = true.
Hypothesis id_present : present id event.

Lemma connect_run w :
  putFault cloud id = None ->
  AwsSam.Connect.handler cloud event w
  = (Some (Fulfilled
             (AwsSam.Utils.createResponse cloud 200
                (JObject [ ("message", JString "Connected") ]) [])),
     withTable (putItem (connectedItem cloud id) (table w))
       (record (PutCommand (DYNAMODB_CONNECTIONS_TABLE (configOf cloud))
                  (connectedItem cloud id)) w)).
Proof.
  intros Hput. destruct id_present as [Hid Hne].
  destruct (truthy_connectionId id Hne) as [Ht Ho].
  unfold AwsSam.Connect.handler. rewrite Hid, Ht, Ho. cbn [negb].
  unfold try_catch.
  rewrite (await_fulfilled _ _ w _ _ (validateEnvironment_run cloud w is_configured)).
  unfold await, send_Put. cbn [connectionId]. rewrite Hput. reflexivity.
Qed.

Lemma disconnect_run w :
  deleteFault cloud id = None ->
  AwsSam.Disconnect.handler cloud event w
  = (Some (Fulfilled
             (AwsSam.Utils.createResponse cloud 200
                (JObject [ ("message", JString "Disconnected") ]) [])),
     withTable (deleteKey id (table w))
       (record (DeleteCommand (DYNAMODB_CONNECTIONS_TABLE (configOf cloud)) id) w)).
Proof.
  intros Hdel. destruct id_present as [Hid Hne].
  destruct (truthy_connectionId id Hne) as [Ht Ho].
  unfold AwsSam.Disconnect.handler. rewrite Hid, Ht, Ho. cbn [negb].
  unfold try_catch.
  rewrite (await_fulfilled _ _ w _ _ (validateEnvironment_run cloud w is_configured)).
  unfold await, send_Delete. rewrite Hdel. reflexivity.
Qed.

End LifecycleFacts.

(** X6: Disconnect is idempotent.  With the environment set and the delete
    accepted, two Disconnects in a row for the same connection both answer
    200 'Disconnected'; after the first one the record is absent, the second
    one changes nothing in the table, and no other record is touched. *)
Theorem disconnect_is_idempotent cloud event id w :
  configured cloud = true ->
  present id event ->
  deleteFault cloud id = None ->
  let disconnected :=
    AwsSam.Utils.createResponse cloud 200
      (JObject [ ("message", JString "Disconnected") ]) [] in
  exists w1 w2,
    AwsSam.Disconnect.handler cloud event w = (Some (Fulfilled disconnected), w1)
    /\ AwsSam.Disconnect.handler cloud event w1 = (Some (Fulfilled disconnected), w2)
    /\ lookupConnection id (table w1) = None
    /\ table w2 = table w1
    /\ (forall k, k <> id ->
                  lookupConnection k (table w1) = lookupConnection k (table w)).
Proof.
  intros Hc Hid Hdel disconnected.
  do 2 eexists. split; [|split; [|split; [|split]]].
  - apply (disconnect_run cloud event id Hc Hid w Hdel).
  - apply (disconnect_run cloud event id Hc Hid _ Hdel).
  - apply lookupConnection_deleteKey.
  - cbn. apply deleteKey_absent. rewrite In_keys_deleteKey. tauto.
  - intros k Hne. cbn. now apply lookupConnection_deleteKey_other.
Qed.

Lemma disconnect_is_idempotent_witness :
  exists w1 w2,
    AwsSam.Disconnect.handler Scenario.healthy (Scenario.inbound "c2" None)
      (Scenario.worldOf ["c1"; "c2"])
    = (Some (Fulfilled
               (AwsSam.Utils.createResponse Scenario.healthy 200
                  (JObject [ ("message", JString "Disconnected") ]) [])), w1)
    /\ AwsSam.Disconnect.handler Scenario.healthy (Scenario.inbound "c2" None) w1
       = (Some (Fulfilled
                  (AwsSam.Utils.createResponse Scenario.healthy 200
                     (JObject [ ("message", JString "Disconnected") ]) [])), w2)
    /\ lookupConnection "c2" (table w1) = None
    /\ table w2 = table w1.
Proof.
  destruct (disconnect_is_idempotent Scenario.healthy (Scenario.inbound "c2" None)
              "c2" (Scenario.worldOf ["c1"; "c2"]))
    as (w1 & w2 & H1 & H2 & H3 & H4 & _).
  - reflexivity.
  - split; [reflexivity|discriminate].
  - reflexivity.
  - exists w1, w2. auto.
Defined.



(** X8: a connection that has connected is reached by the next broadcast.
    After a successful Connect of [id] into a table with unique keys, and
    with the scans succeeding, [getAllConnections] returns [id] and
    [broadcastToAll] pushes the message to it. *)
Theorem connected_is_reached_by_broadcast cloud event id w message :
  configured cloud = true ->
  present id event ->
  putFault cloud id = None ->
  NoDup (keys (table w)) ->
  (forall key, scanFault cloud key = None) ->
  exists response w1 connections w2 results w3,
    AwsSam.Connect.handler cloud event w = (Some (Fulfilled response), w1)
    /\ statusCode response = 200%Z
    /\ AwsSam.BroadcastService.getAllConnections cloud (serviceOf cloud) w1
       = (Some (Fulfilled connections), w2)
    /\ In id (keys connections)
    /\ AwsSam.BroadcastService.broadcastToAll cloud (serviceOf cloud) message w1
       = (Some (Fulfilled results), w3)
    /\ In (PostToConnectionCommand id (AwsSam.Utils.encodeMessage cloud message))
          (pushes w3).
Proof.
  intros Hc Hid Hput Hnd Hscan.
  pose proof (connect_run cloud event id Hc Hid w Hput) as Hrun.
  set (w1 := withTable (putItem (connectedItem cloud id) (table w))
               (record (PutCommand (DYNAMODB_CONNECTIONS_TABLE (configOf cloud))
                          (connectedItem cloud id)) w)) in *.
  assert (Hnd1 : NoDup (keys (table w1))) by (apply NoDup_putItem; exact Hnd).
  destruct (getAllConnections_complete cloud (serviceOf cloud) Hscan w1 Hnd1)
    as (w2 & Hall & _ & _).
  assert (Hin : In id (keys (map project (table w1)))).
  { unfold keys. rewrite map_map. cbn [connectionId project].
    destruct (lookupConnection id (table w1)) as [x|] eqn:E.
    - apply find_some in E as [Hx Heq]. apply String.eqb_eq in Heq.
      apply in_map_iff. exists x. auto.
    - unfold w1 in E. cbn [table withTable record] in E.
      pose proof (lookupConnection_putItem (connectedItem cloud id) (table w)) as Hl.
      cbn [connectionId connectedItem] in Hl. congruence. }
  do 6 eexists. split; [exact Hrun|]. split; [reflexivity|].
  split; [exact Hall|]. split; [exact Hin|].
  split; [apply (broadcastToAll_run cloud _ message (chunkSize_new _) w1 _ w2 Hall)|].
  rewrite pushes_sendAll. apply in_or_app. right.
  apply in_map_iff. exists id. split; [reflexivity|]. exact Hin.
Qed.

Lemma connected_is_reached_by_broadcast_witness :
  exists response w1 connections w2 results w3,
    AwsSam.Connect.handler Scenario.healthy (Scenario.inbound "c3" None)
      (Scenario.worldOf ["c1"; "c2"])
    = (Some (Fulfilled response), w1)
    /\ statusCode response = 200%Z
    /\ AwsSam.BroadcastService.getAllConnections Scenario.healthy
         (serviceOf Scenario.healthy) w1
       = (Some (Fulfilled connections), w2)
    /\ In "c3" (keys connections)
    /\ AwsSam.BroadcastService.broadcastToAll Scenario.healthy
         (serviceOf Scenario.healthy) Scenario.testRequest w1
       = (Some (Fulfilled results), w3)
    /\ In (PostToConnectionCommand "c3"
             (AwsSam.Utils.encodeMessage Scenario.healthy Scenario.testRequest))
          (pushes w3).
Proof.
  apply (connected_is_reached_by_broadcast Scenario.healthy
           (Scenario.inbound "c3" None) "c3" (Scenario.worldOf ["c1"; "c2"])
           Scenario.testRequest).
  - reflexivity.
  - split; [reflexivity|discriminate].
  - reflexivity.
  - repeat constructor; simpl; intuition discriminate.
  - reflexivity.
Defined.

(** X9: Connect followed by Disconnect of a connection that was not stored
    leaves the table exactly as it was. *)
Theorem connect_then_disconnect_restores_table cloud event id w :
  configured cloud = true ->
  present id event ->
  putFault cloud id = None ->
  deleteFault cloud id = None ->
  ~ In id (keys (table w)) ->
  exists r1 w1 r2 w2,
    AwsSam.Connect.handler cloud event w = (Some (Fulfilled r1), w1)
    /\ statusCode r1 = 200%Z
    /\ AwsSam.Disconnect.handler cloud event w1 = (Some (Fulfilled r2), w2)
    /\ statusCode r2 = 200%Z
    /\ table w2 = table w.
Proof.
  intros Hc Hid Hput Hdel Hfresh.
  do 4 eexists. split; [apply (connect_run cloud event id Hc Hid w Hput)|].
  split; [reflexivity|].
  split; [apply (disconnect_run cloud event id Hc Hid _ Hdel)|].
  split; [reflexivity|].
  cbn [table withTable record].
  apply (deleteKey_putItem_fresh (connectedItem cloud id)). exact Hfresh.
Qed.

Lemma connect_then_disconnect_restores_table_witness :
  exists r1 w1 r2 w2,
    AwsSam.Connect.handler Scenario.healthy (Scenario.inbound "c3" None)
      (Scenario.worldOf ["c1"; "c2"])
    = (Some (Fulfilled r1), w1)
    /\ statusCode r1 = 200%Z
    /\ AwsSam.Disconnect.handler Scenario.healthy (Scenario.inbound "c3" None) w1
       = (Some (Fulfilled r2), w2)
    /\ statusCode r2 = 200%Z
    /\ table w2 = table (Scenario.worldOf ["c1"; "c2"]).
Proof.
  apply (connect_then_disconnect_restores_table Scenario.healthy
           (Scenario.inbound "c3" None) "c3" (Scenario.worldOf ["c1"; "c2"])).
  - reflexivity.
  - split; [reflexivity|discriminate].
  - reflexivity.
  - reflexivity.
  - simpl. intuition discriminate.
Defined.

(* ================================================================== *)
(** * What the handlers do to the table *)
(* ================================================================== *)

Section Respects.

Variable cloud : Cloud.
Variable R : World -> World -> Prop.

Hypothesis R_table : forall w w1, table w1 = table w -> R w w1.
Hypothesis R_trans : forall w w1 w2, R w w1 -> R w1 w2 -> R w w2.
Hypothesis R_delete : forall w w1 id, table w1 = deleteKey id (table w) -> R w w1.

Lemma respects_resolve {A : Type} (a : A) : respects R (resolve a).
Proof. intros w r w1 H. inversion H; subst. now apply R_table. Qed.

Lemma respects_throw {A : Type} (e : JSError) : respects R (@throw A e).
Proof. intros w r w1 H. inversion H; subst. now apply R_table. Qed.

Lemma respects_pending {A : Type} : respects R (@pending A).
Proof. intros w r w1 H. inversion H; subst. now apply R_table. Qed.

Lemma respects_await {A B : Type} (p : Promise A) (k : A -> Promise B) :
  respects R p -> (forall a, respects R (k a)) -> respects R (await p k).
Proof.
  intros Hp Hk w r w1. unfold await.
  destruct (p w) as [[[a|e]|] w0] eqn:E; intros H.
  - apply (R_trans w w0 w1); [apply (Hp w _ w0 E)|apply (Hk a w0 r w1 H)].
  - inversion H; subst. apply (Hp w _ w1 E).
  - inversion H; subst. apply (Hp w _ w1 E).
Qed.

Lemma respects_try_catch {A : Type} (p : Promise A) (h : JSError -> Promise A) :
  respects R p -> (forall e, respects R (h e)) -> respects R (try_catch p h).
Proof.
  intros Hp Hh w r w1. unfold try_catch.
  destruct (p w) as [[[a|e]|] w0] eqn:E; intros H.
  - inversion H; subst. apply (Hp w _ w1 E).
  - apply (R_trans w w0 w1); [apply (Hp w _ w0 E)|apply (Hh e w0 r w1 H)].
  - inversion H; subst. apply (Hp w _ w1 E).
Qed.

Lemma respects_allSettled {A B : Type} (f : B -> Promise A) (l : list B) :
  (forall x, respects R (f x)) -> respects R (Promise_allSettled (map f l)).
Proof.
  intros Hf. induction l as [|x l IH]; intros w r w1; cbn [map Promise_allSettled].
  - intros H. inversion H; subst. now apply R_table.
  - destruct (f x w) as [[s|] w0] eqn:E.
    + destruct (Promise_allSettled (map f l) w0) as [[[rs|e]|] w2] eqn:E2;
        intros H; inversion H; subst;
        (apply (R_trans w w0 w1); [apply (Hf x w _ w0 E)|apply (IH w0 _ w1 E2)]).
    + intros H. inversion H; subst. apply (Hf x w _ w1 E).
Qed.

Lemma respects_all {A B : Type} (f : B -> Promise A) (l : list B) :
  (forall x, respects R (f x)) -> respects R (Promise_all (map f l)).
Proof.
  intros Hf. unfold Promise_all. apply respects_await.
  - now apply respects_allSettled.
  - intros rs. destruct (firstRejection rs);
      [apply respects_throw|apply respects_resolve].
Qed.

Lemma respects_parse text : respects R (parse cloud text).
Proof.
  unfold parse. destruct (JSON_parse cloud text);
    [apply respects_throw|apply respects_resolve].
Qed.

Lemma respects_getProp v k : respects R (getProp v k).
Proof.
  destruct v; cbn [getProp]; try apply respects_resolve. apply respects_throw.
Qed.

Lemma respects_validateEnvironment :
  respects R (AwsSam.Utils.validateEnvironment cloud).
Proof.
  unfold AwsSam.Utils.validateEnvironment.
  repeat match goal with
         | |- respects _ (if ?b then _ else _) => destruct b
         end; try apply respects_throw; apply respects_resolve.
Qed.

Lemma respects_randomUUID : respects R (randomUUID cloud).
Proof. intros w r w1 H. inversion H; subst. now apply R_table. Qed.

Lemma respects_send_Scan name key : respects R (send_Scan cloud name key).
Proof.
  intros w r w1. unfold send_Scan.
  destruct (scanFault cloud key); intros H; inversion H; subst; now apply R_table.
Qed.

Lemma respects_send_Post id data : respects R (send_PostToConnection cloud id data).
Proof.
  intros w r w1. unfold send_PostToConnection.
  destruct (postFault cloud id); intros H; inversion H; subst; now apply R_table.
Qed.

Lemma respects_send_Delete name id : respects R (send_Delete cloud name id).
Proof.
  intros w r w1. unfold send_Delete.
  destruct (deleteFault cloud id); intros H; inversion H; subst;
    [now apply R_table|now apply (R_delete w _ id)].
Qed.

(** Breaks a handler down along its awaits, catches and branches. *)
Ltac respect :=
  repeat first
    [ apply respects_resolve
    | apply respects_throw
    | apply respects_pending
    | apply respects_parse
    | apply respects_getProp
    | apply respects_validateEnvironment
    | apply respects_randomUUID
    | apply respects_send_Scan
    | apply respects_send_Post
    | apply respects_send_Delete
    | apply respects_try_catch; [|intros ?]
    | apply respects_await; [|intros ?]
    | apply respects_allSettled; intros ?
    | apply respects_all; intros ?
    | match goal with
      | |- respects _ (if ?b then _ else _) => destruct b
      | |- respects _ (match ?x with _ => _ end) => destruct x
      end ].

Lemma respects_getAllConnections_loop this fuel key acc :
  respects R (AwsSam.BroadcastService.getAllConnections_loop cloud this fuel key acc).
Proof.
  revert key acc. induction fuel as [|fuel IH]; intros key acc;
    cbn [AwsSam.BroadcastService.getAllConnections_loop]; [respect|].
  apply respects_await; [respect|]. intros result.
  destruct (LastEvaluatedKey result); [apply IH|respect].
Qed.

Lemma respects_getAllConnections this :
  respects R (AwsSam.BroadcastService.getAllConnections cloud this).
Proof.
  intros w r w1 H. unfold AwsSam.BroadcastService.getAllConnections in H.
  apply (respects_getAllConnections_loop _ _ _ _ w r w1 H).
Qed.

Lemma respects_sendToConnection this id message :
  respects R (AwsSam.BroadcastService.sendToConnection cloud this id message).
Proof.
  unfold AwsSam.BroadcastService.sendToConnection,
    AwsSam.BroadcastService.removeStaleConnection.
  respect.
Qed.

Lemma respects_broadcastToAll_loop this fuel connections message i tally :
  respects R (AwsSam.BroadcastService.broadcastToAll_loop cloud this fuel
                connections message i tally).
Proof.
  revert i tally. induction fuel as [|fuel IH]; intros i tally;
    cbn [AwsSam.BroadcastService.broadcastToAll_loop]; [respect|].
  destruct (i <? List.length connections); [|respect].
  apply respects_await.
  - apply respects_allSettled. intros c. apply respects_sendToConnection.
  - intros results. apply respects_await; [|intros _; apply IH].
    unfold AwsSam.BroadcastService.delay. respect.
Qed.

Lemma respects_broadcastToAll this message :
  respects R (AwsSam.BroadcastService.broadcastToAll cloud this message).
Proof.
  unfold AwsSam.BroadcastService.broadcastToAll.
  apply respects_await; [apply respects_getAllConnections|].
  intros connections. apply respects_broadcastToAll_loop.
Qed.

Lemma respects_broadcast_handler event :
  respects R (AwsSam.Broadcast.handler cloud event).
Proof.
  unfold AwsSam.Broadcast.handler, AwsSam.Broadcast.onError.
  apply respects_try_catch; [|intros e; respect].
  apply respects_await; [respect|]. intros config.
  destruct (event_body event) as [text|]; [|respect].
  destruct (text =? EmptyString)%string; [respect|].
  destruct (JSON_parse cloud text) as [e|requestBody]; [respect|].
  unfold AwsSam.Broadcast.broadcastParsed.
  apply respects_await; [respect|]. intros type.
  apply respects_await; [respect|]. intros data.
  destruct (negb (truthyValue type) || negb (truthyValue data)); [respect|].
  apply respects_await; [apply respects_broadcastToAll|]. intros results. respect.
Qed.

Lemma respects_disconnect_handler event :
  respects R (AwsSam.Disconnect.handler cloud event).
Proof.
  unfold AwsSam.Disconnect.handler, AwsSam.Disconnect.onError. respect.
Qed.

Lemma respects_default_handler event :
  respects R (AwsSam.Default.handler cloud event).
Proof.
  unfold AwsSam.Default.handler, AwsSam.Default.onError. respect.
Qed.

Lemma respects_serverless_disconnect event :
  respects R (Serverless.Disconnect.handler cloud event).
Proof. unfold Serverless.Disconnect.handler. respect. Qed.

Lemma respects_serverless_default event :
  respects R (Serverless.handler cloud event).
Proof. unfold Serverless.handler. respect. Qed.

Lemma respects_serverless_broadcast event :
  respects R (Serverless.broadcastToAll cloud event).
Proof.
  unfold Serverless.broadcastToAll.
  destruct (negb (truthyString (env_DYNAMODB_CONNECTIONS_TABLE (process_env cloud))));
    [respect|].
  apply respects_try_catch; [|intros e; respect].
  destruct (negb (truthyString (event_body event))); [respect|].
  do 8 (apply respects_await; [respect|]; intros ?).
  apply respects_await.
  - unfold Serverless.idOrRandom. respect.
  - intros id. apply respects_await; [|intros ?; respect].
    apply respects_all. intros item. unfold Serverless.pushOne. respect.
Qed.

Hypothesis R_put : forall w w1 item, table w1 = putItem item (table w) -> R w w1.




End Respects.





Lemma addsNoKey_table w w1 : table w1 = table w -> addsNoKey w w1.
Proof. unfold addsNoKey. intros ->. apply incl_refl. Qed.

Lemma addsNoKey_trans w w1 w2 :
  addsNoKey w w1 -> addsNoKey w1 w2 -> addsNoKey w w2.
Proof. unfold addsNoKey. intros H1 H2. eapply incl_tran; eassumption. Qed.

Lemma addsNoKey_delete w w1 id :
  table w1 = deleteKey id (table w) -> addsNoKey w w1.
Proof.
  unfold addsNoKey. intros -> k Hk. apply In_keys_deleteKey in Hk. tauto.
Qed.



(** X11: only Connect adds a record.  After an invocation of Disconnect, of
    the default handler or of a broadcast, in either variant, every key of
    the table was already a key before: whatever the event and the answers
    of the services, these handlers never insert. *)
Theorem only_connect_adds_a_key cloud event w :
  let addsNone run :=
    incl (keys (table (snd (run event w)))) (keys (table w)) in
  addsNone (AwsSam.Disconnect.handler cloud)
  /\ addsNone (AwsSam.Default.handler cloud)
  /\ addsNone (AwsSam.Broadcast.handler cloud)
  /\ addsNone (Serverless.Disconnect.handler cloud)
  /\ addsNone (Serverless.handler cloud)
  /\ addsNone (Serverless.broadcastToAll cloud).
Proof.
  intros addsNone. unfold addsNone.
  assert (Hrun : forall run : APIGatewayProxyEvent -> Promise LambdaResponse,
             respects addsNoKey (run event) ->
             incl (keys (table (snd (run event w)))) (keys (table w))).
  { intros run Hr. destruct (run event w) as [r w1] eqn:E.
    apply (Hr w r w1 E). }
  repeat split; apply Hrun.
  - apply respects_disconnect_handler;
      eauto using addsNoKey_table, addsNoKey_trans, addsNoKey_delete.
  - apply respects_default_handler;
      eauto using addsNoKey_table, addsNoKey_trans.
  - apply respects_broadcast_handler;
      eauto using addsNoKey_table, addsNoKey_trans, addsNoKey_delete.
  - apply respects_serverless_disconnect;
      eauto using addsNoKey_table, addsNoKey_trans, addsNoKey_delete.
  - apply respects_serverless_default;
      eauto using addsNoKey_table, addsNoKey_trans.
  - apply respects_serverless_broadcast;
      eauto using addsNoKey_table, addsNoKey_trans, addsNoKey_delete.
Qed.

(* ================================================================== *)
(** * The echo *)
(* ================================================================== *)

(** X12: the default handlers talk to the sender only.  Whatever the event
    and the answers of the services, an invocation leaves the table as it
    was and sends either nothing or a single push, addressed to the
    connection the message came from; in particular a push that fails, even
    with 410, deletes nothing, and the aws-sam handler answers it with 500. *)
Theorem default_handler_talks_to_the_sender_only cloud event w :
  (let w1 := snd (AwsSam.Default.handler cloud event w) in
   w1 = w
   \/ exists id data,
        requestContext_connectionId event = Some id
        /\ w1 = record (PostToConnectionCommand id data) w)
  /\ (let w1 := snd (Serverless.handler cloud event w) in
      table w1 = table w
      /\ (commands w1 = commands w
          \/ exists id data,
               requestContext_connectionId event = Some id
               /\ commands w1 = commands w ++ [PostToConnectionCommand id data]))
  /\ (forall id original e,
         configured cloud = true ->
         present id event ->
         JSON_parse cloud (orElse (event_body event) "{}") = inr original ->
         postFault cloud id = Some e ->
         exists response,
           AwsSam.Default.handler cloud event w
           = (Some (Fulfilled response),
              record (PostToConnectionCommand id
                        (AwsSam.Utils.encodeMessage cloud
                           (AwsSam.Default.echo cloud original id))) w)
           /\ statusCode response = 500%Z).
Proof.
  split; [|split].
  - unfold AwsSam.Default.handler.
    destruct (requestContext_connectionId event) as [id|]; [|left; reflexivity].
    cbn [truthyString orElse].
    destruct (id =? EmptyString)%string; cbn [negb]; [left; reflexivity|].
    unfold try_catch, await.
    destruct (validateEnvironment_cases cloud w) as [[_ ->]|[_ (e & -> & He)]].
    + unfold parse. destruct (JSON_parse cloud _) as [e|original].
      * unfold throw, AwsSam.Default.onError.
        destruct (isConfigurationError e); left; reflexivity.
      * unfold resolve, send_PostToConnection.
        destruct (postFault cloud id) as [e|].
        -- unfold AwsSam.Default.onError.
           destruct (isConfigurationError e); right; do 2 eexists;
             split; reflexivity.
        -- right. do 2 eexists. split; reflexivity.
    + unfold AwsSam.Default.onError. rewrite He. left. reflexivity.
  - unfold Serverless.handler.
    destruct (requestContext_connectionId event) as [id|];
      [|split; [reflexivity|left; reflexivity]].
    cbn [truthyString orElse].
    destruct (id =? EmptyString)%string; cbn [negb];
      [split; [reflexivity|left; reflexivity]|].
    unfold try_catch, await, parse.
    destruct (JSON_parse cloud _) as [e|original];
      [split; [reflexivity|left; reflexivity]|].
    unfold resolve, randomUUID, send_PostToConnection.
    destruct (postFault cloud id); (split; [reflexivity|]); right;
      do 2 eexists; split; reflexivity.
  - intros id original e Hc [Hid Hne] Hparse Hpost.
    destruct (truthy_connectionId id Hne) as [Ht Ho].
    unfold AwsSam.Default.handler. rewrite Hid, Ht, Ho. cbn [negb].
    unfold try_catch.
    rewrite (await_fulfilled _ _ w _ _ (validateEnvironment_run cloud w Hc)).
    unfold parse. rewrite Hparse.
    unfold await, resolve, send_PostToConnection. rewrite Hpost.
    unfold AwsSam.Default.onError.
    destruct (isConfigurationError e); eexists; split; reflexivity.
Qed.

Lemma default_handler_talks_to_the_sender_only_witness :
  exists response,
    AwsSam.Default.handler Scenario.senderGone (Scenario.inbound "c9" None)
      (Scenario.worldOf ["c9"])
    = (Some (Fulfilled response),
       record (PostToConnectionCommand "c9"
                 (AwsSam.Utils.encodeMessage Scenario.senderGone
                    (AwsSam.Default.echo Scenario.senderGone (JObject []) "c9")))
         (Scenario.worldOf ["c9"]))
    /\ statusCode response = 500%Z.
Proof.
  destruct (default_handler_talks_to_the_sender_only Scenario.senderGone
              (Scenario.inbound "c9" None) (Scenario.worldOf ["c9"]))
    as (_ & _ & H).
  apply (H "c9" (JObject []) Scenario.goneException).
  - reflexivity.
  - split; [reflexivity|discriminate].
  - reflexivity.
  - reflexivity.
Defined.

(* ================================================================== *)
(** * More on the broadcast engine *)
(* ================================================================== *)





(** X15: what a broadcast does to the table.  Once the scan has returned
    [connections], a key is in the table after the broadcast exactly when it
    was there before and it is not a scanned connection whose push was
    answered with 410 and whose delete was accepted: records of delivered
    connections, of connections with a transient failure and of connections
    that were not scanned all stay. *)
Theorem broadcast_removes_exactly_the_reaped cloud name message w connections w0 :
  AwsSam.BroadcastService.getAllConnections cloud
    (AwsSam.BroadcastService.new name) w
  = (Some (Fulfilled connections), w0) ->
  exists results w1,
    AwsSam.BroadcastService.broadcastToAll cloud
      (AwsSam.BroadcastService.new name) message w
    = (Some (Fulfilled results), w1)
    /\ forall k,
         In k (keys (table w1))
         <-> In k (keys (table w))
             /\ ~ (In k (keys connections)
                   /\ gone cloud k = true /\ deletable cloud k = true).
Proof.
  intros Hscan.
  rewrite (broadcastToAll_run cloud _ message (chunkSize_new name)
             w connections w0 Hscan).
  do 2 eexists. split; [reflexivity|].
  intros k. rewrite In_keys_sendAll.
  destruct (getAllConnections_keeps cloud _ w _ w0 Hscan) as (-> & _).
  reflexivity.
Qed.

Lemma broadcast_removes_exactly_the_reaped_witness :
  exists results w1,
    AwsSam.BroadcastService.broadcastToAll Scenario.scenarioA
      (AwsSam.BroadcastService.new "test-connections") Scenario.testRequest
      (Scenario.worldOf ["c1"; "c2"; "c3"])
    = (Some (Fulfilled results), w1)
    /\ In "c3" (keys (table w1))
    /\ ~ In "c2" (keys (table w1)).
Proof.
  destruct (broadcast_removes_exactly_the_reaped Scenario.scenarioA
              "test-connections" Scenario.testRequest
              (Scenario.worldOf ["c1"; "c2"; "c3"])
              (map project (table (Scenario.worldOf ["c1"; "c2"; "c3"])))
              (record (ScanCommand "test-connections" None)
                 (Scenario.worldOf ["c1"; "c2"; "c3"])))
    as (results & w1 & Hrun & Hiff).
  - reflexivity.
  - exists results, w1. split; [exact Hrun|]. split.
    + apply Hiff. split; [simpl; auto|].
      intros (_ & Hg & _). discriminate.
    + intros Hin. apply Hiff in Hin as [_ Hno]. apply Hno.
      split; [simpl; auto|]. split; reflexivity.
Defined.

(* ================================================================== *)
(** * The serverless broadcast *)
(* ================================================================== *)

Lemma pushOne_outcome cloud tableName messageData item w :
  exists w1,
    Serverless.pushOne cloud tableName messageData item w
    = (Some (pushOutcome cloud item), w1).
Proof.
  unfold Serverless.pushOne, pushOutcome, try_catch, send_PostToConnection.
  destruct (postFault cloud (connectionId item)) as [e|]; [|eexists; reflexivity].
  destruct (Serverless.isGone e); [|eexists; reflexivity].
  unfold send_Delete.
  destruct (deleteFault cloud (connectionId item)); eexists; reflexivity.
Qed.

Lemma allSettled_pushOne_outcomes cloud tableName messageData items w :
  exists w1,
    Promise_allSettled (map (Serverless.pushOne cloud tableName messageData) items) w
    = (Some (Fulfilled (map (pushOutcome cloud) items)), w1).
Proof.
  revert w. induction items as [|item items IH]; intros w.
  - eexists. reflexivity.
  - destruct (pushOne_outcome cloud tableName messageData item w) as (w1 & H1).
    destruct (IH w1) as (w2 & H2).
    exists w2. cbn [map Promise_allSettled]. now rewrite H1, H2.
Qed.

Lemma firstRejection_outcomes cloud items :
  (existsb (deleteRefused cloud) items = true ->
   exists e, firstRejection (map (pushOutcome cloud) items) = Some e)
  /\ (existsb (deleteRefused cloud) items = false ->
      firstRejection (map (pushOutcome cloud) items) = None).
Proof.
  unfold firstRejection.
  induction items as [|item items [IHt IHf]]; simpl.
  - split; [discriminate|reflexivity].
  - unfold deleteRefused at 1 3.
    destruct (pushOutcome cloud item) as [u|e]; simpl.
    + split; assumption.
    + split; [intros _; now exists e|discriminate].
Qed.

(** X16: how the serverless broadcast answers.  With the table name set, a
    body that parses to a non-null value and a successful scan, the endpoint
    answers 200 with [connectionCount] equal to the number of items of the
    scanned page, also when pushes fail; the one exception is a stale
    delete that DynamoDB refuses, which rejects [Promise.all] and turns the
    answer into 500. *)
Theorem serverless_broadcast_answer cloud event requestBody w :
  truthyString (env_DYNAMODB_CONNECTIONS_TABLE (process_env cloud)) = true ->
  parsedBody cloud event = Some requestBody ->
  requestBody <> JNull ->
  scanFault cloud None = None ->
  let items := map project (firstn (pageSize cloud) (table w)) in
  exists response w1,
    Serverless.broadcastToAll cloud event w = (Some (Fulfilled response), w1)
    /\ (existsb (deleteRefused cloud) items = true ->
        statusCode response = 500%Z)
    /\ (existsb (deleteRefused cloud) items = false ->
        statusCode response = 200%Z
        /\ body response
           = JSON_stringify cloud
               (JObject [ ("message", JString "Broadcast completed");
                          ("connectionCount",
                            JNumber (Z.of_nat (List.length items))) ])).
Proof.
  intros Htable Hp Hn Hscan items.
  unfold parsedBody in Hp.
  destruct (event_body event) as [text|] eqn:Hbody; [|discriminate].
  destruct (text =? EmptyString)%string eqn:Htext; [discriminate|].
  destruct (JSON_parse cloud text) as [|parsed] eqn:Hparse; [discriminate|].
  inversion Hp; subst parsed; clear Hp.
  set (name := orElse (env_DYNAMODB_CONNECTIONS_TABLE (process_env cloud)) EmptyString).
  set (id := nullish (field requestBody "id")
               (JString (randomUUID_at cloud (uuidsDrawn w)))).
  set (envelope :=
         Serverless.webSocketMessage cloud
           (field requestBody "type") (field requestBody "data")
           (field requestBody "version") (field requestBody "source")
           (field requestBody "meta") id).
  set (w0 := {| table := table w;
                commands := commands w ++ [ScanCommand name None];
                uuidsDrawn := uuidsDrawn w
                              + (if omitted (field requestBody "id") then 1 else 0) |}).
  destruct (allSettled_pushOne_outcomes cloud name (JSON_stringify cloud envelope)
              items w0) as (w1 & Hall).
  destruct (firstRejection_outcomes cloud items) as [Hrefused Hclean].
  assert (Hrun :
    Serverless.broadcastToAll cloud event w
    = try_catch
        (Promise_all (map (Serverless.pushOne cloud name (JSON_stringify cloud envelope))
                        items) ;;;
         resolve
           {| statusCode := 200;
              headers := [ Serverless.originHeader cloud;
                           ("Access-Control-Allow-Headers", "Content-Type,Authorization");
                           ("Access-Control-Allow-Methods", "POST,OPTIONS") ];
              body := JSON_stringify cloud
                        (JObject
                           [ ("message", JString "Broadcast completed");
                             ("connectionCount",
                               JNumber (Z.of_nat (List.length items))) ]) |})
        (fun error =>
           resolve (Serverless.originResponse cloud 500
                      (JObject [ ("message", JString "Broadcast failed");
                                 ("error", JString (messageOf error)) ]))) w0).
  { unfold Serverless.broadcastToAll. rewrite Htable. cbn [negb].
    fold name. unfold try_catch. rewrite Hbody. cbn [truthyString orElse].
    rewrite Htext. cbn [negb]. unfold parse. rewrite Hparse.
    unfold await at 1. unfold resolve at 1.
    rewrite !(await_fulfilled _ _ w _ _ (getProp_field _ _ w Hn)).
    unfold await at 1. unfold send_Scan. rewrite Hscan.
    unfold await at 1. rewrite idOrRandom_run.
    unfold Serverless.itemsOrEmpty, scanPage.
    cbn [Items record table commands uuidsDrawn].
    reflexivity. }
  rewrite Hrun. unfold try_catch, await, Promise_all. unfold await. rewrite Hall.
  destruct (existsb (deleteRefused cloud) items).
  - destruct (Hrefused eq_refl) as (e & ->).
    do 2 eexists. split; [reflexivity|]. split; [reflexivity|discriminate].
  - rewrite (Hclean eq_refl).
    do 2 eexists. split; [reflexivity|]. split; [discriminate|].
    intros _. split; reflexivity.
Qed.

Lemma serverless_broadcast_answer_witness :
  (exists response w1,
      Serverless.broadcastToAll Scenario.goneAndThrottled
        (Scenario.post (Scenario.render Scenario.testRequest))
        (Scenario.worldOf ["c1"; "c2"; "c3"])
      = (Some (Fulfilled response), w1)
      /\ statusCode response = 500%Z)
  /\ (exists response w1,
         Serverless.broadcastToAll Scenario.scenarioA
           (Scenario.post (Scenario.render Scenario.testRequest))
           (Scenario.worldOf ["c1"; "c2"; "c3"])
         = (Some (Fulfilled response), w1)
         /\ statusCode response = 200%Z).
Proof.
  split.
  - destruct (serverless_broadcast_answer Scenario.goneAndThrottled
                (Scenario.post (Scenario.render Scenario.testRequest))
                Scenario.testRequest (Scenario.worldOf ["c1"; "c2"; "c3"]))
      as (response & w1 & Hrun & H500 & _).
    + reflexivity.
    + reflexivity.
    + discriminate.
    + reflexivity.
    + exists response, w1. split; [exact Hrun|]. apply H500. reflexivity.
  - destruct (serverless_broadcast_answer Scenario.scenarioA
                (Scenario.post (Scenario.render Scenario.testRequest))
                Scenario.testRequest (Scenario.worldOf ["c1"; "c2"; "c3"]))
      as (response & w1 & Hrun & _ & H200).
    + reflexivity.
    + reflexivity.
    + discriminate.
    + reflexivity.
    + exists response, w1. split; [exact Hrun|]. apply H200. reflexivity.
Defined.



(* ================================================================== *)
(** * The management endpoint *)
(* ================================================================== *)

Lemma prefix_split p s :
  String.prefix p s = true
  -> s = (p ++ Serverless.Utils.dropString (String.length p) s)%string.
Proof.
  revert s. induction p as [|a p IH]; intros s H; [reflexivity|].
  destruct s as [|b s]; [discriminate|].
  simpl in H. destruct (ascii_dec a b) as [->|]; [|discriminate].
  simpl. f_equal. now apply IH.
Qed.

Lemma replace_prefix p r s :
  String.prefix p s = true ->
  Serverless.Utils.replace p r s
  = (r ++ Serverless.Utils.dropString (String.length p) s)%string.
Proof.
  intros H. destruct s; cbn [Serverless.Utils.replace]; now rewrite H.
Qed.

(** X18: [normalizeManagementEndpoint] turns a WebSocket URL into the HTTP
    URL of the management API: [wss://rest] becomes [https://rest],
    [ws://rest] becomes [http://rest] and anything else is returned as it
    is.  The result never starts with [ws://] or [wss://], and normalizing
    twice is normalizing once. *)
Theorem normalizeManagementEndpoint_maps_ws_to_http raw :
  let normalize := Serverless.Utils.normalizeManagementEndpoint in
  let startsWith := Serverless.Utils.startsWith in
  (startsWith raw "wss://" = true ->
   normalize raw = ("https://" ++ Serverless.Utils.dropString 6 raw)%string)
  /\ (startsWith raw "ws://" = true ->
      normalize raw = ("http://" ++ Serverless.Utils.dropString 5 raw)%string)
  /\ (startsWith raw "wss://" = false -> startsWith raw "ws://" = false ->
      normalize raw = raw)
  /\ startsWith (normalize raw) "ws://" = false
  /\ startsWith (normalize raw) "wss://" = false
  /\ normalize (normalize raw) = normalize raw.
Proof.
  intros normalize startsWith.
  unfold normalize, startsWith, Serverless.Utils.normalizeManagementEndpoint,
    Serverless.Utils.startsWith.
  destruct (String.prefix "wss://" raw) eqn:Hwss.
  - pose proof (prefix_split "wss://" raw Hwss) as Hraw.
    rewrite (replace_prefix "wss://" "https://" raw Hwss).
    assert (Hws : String.prefix "ws://" raw = false)
      by (rewrite Hraw; reflexivity).
    cbn [String.length].
    split; [reflexivity|]. split; [congruence|]. split; [discriminate|].
    split; [reflexivity|]. split; reflexivity.
  - destruct (String.prefix "ws://" raw) eqn:Hws.
    + rewrite (replace_prefix "ws://" "http://" raw Hws).
      cbn [String.length].
      split; [discriminate|]. split; [reflexivity|]. split; [discriminate|].
      split; [reflexivity|]. split; reflexivity.
    + split; [discriminate|]. split; [discriminate|]. split; [reflexivity|].
      split; [exact Hws|]. split; [exact Hwss|].
      now rewrite Hwss, Hws.
Qed.

Lemma normalizeManagementEndpoint_maps_ws_to_http_witness :
  Serverless.Utils.normalizeManagementEndpoint "wss://example.com/dev"
  = "https://example.com/dev"
  /\ Serverless.Utils.normalizeManagementEndpoint "ws://localhost:3001"
     = "http://localhost:3001"
  /\ Serverless.Utils.normalizeManagementEndpoint "http://localhost:3001"
     = "http://localhost:3001".
Proof.
  split; [|split].
  - destruct (normalizeManagementEndpoint_maps_ws_to_http "wss://example.com/dev")
      as (H & _).
    apply H. reflexivity.
  - destruct (normalizeManagementEndpoint_maps_ws_to_http "ws://localhost:3001")
      as (_ & H & _).
    apply H. reflexivity.
  - destruct (normalizeManagementEndpoint_maps_ws_to_http "http://localhost:3001")
      as (_ & _ & H & _).
    apply H; reflexivity.
Defined.

(* ================================================================== *)
(** * Two variants, one table *)
(* ================================================================== *)

Lemma configured_table cloud :
  configured cloud = true ->
  truthyString (env_DYNAMODB_CONNECTIONS_TABLE (process_env cloud)) = true.
Proof. unfold configured. intros H. now apply andb_true_iff in H as [H _]. Qed.

(** X19: the Connect and Disconnect handlers of the two variants do the same
    thing to the world.  With the environment set, for every event the
    aws-sam handler and the serverless handler send the same command, leave
    the same table (Connect stores the same record, with a [ttl] 24 hours
    ahead) and answer with the same status. *)
Theorem lifecycle_variants_agree cloud event w :
  configured cloud = true ->
  (snd (AwsSam.Connect.handler cloud event w)
   = snd (Serverless.Connect.handler cloud event w)
   /\ Scenario.statusOf (AwsSam.Connect.handler cloud event w)
      = Scenario.statusOf (Serverless.Connect.handler cloud event w))
  /\ (snd (AwsSam.Disconnect.handler cloud event w)
      = snd (Serverless.Disconnect.handler cloud event w)
      /\ Scenario.statusOf (AwsSam.Disconnect.handler cloud event w)
         = Scenario.statusOf (Serverless.Disconnect.handler cloud event w)).
Proof.
  intros Hc. pose proof (configured_table cloud Hc) as Ht.
  split.
  - unfold AwsSam.Connect.handler, Serverless.Connect.handler.
    destruct (truthyString (requestContext_connectionId event)); cbn [negb];
      [|split; reflexivity].
    rewrite Ht. cbn [negb]. unfold try_catch.
    rewrite (await_fulfilled _ _ w _ _ (validateEnvironment_run cloud w Hc)).
    unfold await, send_Put. cbn [connectionId].
    destruct (putFault cloud _) as [e|]; [|split; reflexivity].
    unfold AwsSam.Connect.onError.
    destruct (isConfigurationError e); split; reflexivity.
  - unfold AwsSam.Disconnect.handler, Serverless.Disconnect.handler.
    destruct (truthyString (requestContext_connectionId event)); cbn [negb];
      [|split; reflexivity].
    rewrite Ht. cbn [negb]. unfold try_catch.
    rewrite (await_fulfilled _ _ w _ _ (validateEnvironment_run cloud w Hc)).
    unfold await, send_Delete.
    destruct (deleteFault cloud _) as [e|]; [|split; reflexivity].
    unfold AwsSam.Disconnect.onError.
    destruct (isConfigurationError e); split; reflexivity.
Qed.

Lemma lifecycle_variants_agree_witness :
  snd (AwsSam.Connect.handler Scenario.healthy (Scenario.inbound "c3" None)
         (Scenario.worldOf ["c1"]))
  = snd (Serverless.Connect.handler Scenario.healthy (Scenario.inbound "c3" None)
           (Scenario.worldOf ["c1"])).
Proof.
  destruct (lifecycle_variants_agree Scenario.healthy (Scenario.inbound "c3" None)
              (Scenario.worldOf ["c1"]) eq_refl)
    as ((H & _) & _).
  exact H.
Defined.

(* ================================================================== *)
(** * How failures are reported *)
(* ================================================================== *)



(** X21: how the serverless endpoints turn a request away.  Without the
    table name, Connect and Disconnect (for a present connection id) and the
    broadcast endpoint answer 500 'Server configuration error'; with it, the
    broadcast endpoint answers a missing or empty body with 400 and a body
    that does not parse with 500 'Broadcast failed' (not 400).  In all these
    cases no command is sent. *)
Theorem serverless_requests_turned_away cloud event w :
  let tableSet :=
    truthyString (env_DYNAMODB_CONNECTIONS_TABLE (process_env cloud)) in
  let configurationError :=
    JObject [ ("message", JString "Server configuration error") ] in
  (tableSet = false ->
   Serverless.broadcastToAll cloud event w
   = (Some (Fulfilled (Serverless.originResponse cloud 500 configurationError)), w)
   /\ (truthyString (requestContext_connectionId event) = true ->
       Serverless.Connect.handler cloud event w
       = (Some (Fulfilled (Serverless.plainResponse cloud 500 configurationError)), w)
       /\ Serverless.Disconnect.handler cloud event w
          = (Some (Fulfilled (Serverless.plainResponse cloud 500 configurationError)),
             w)))
  /\ (tableSet = true ->
      truthyString (event_body event) = false ->
      Serverless.broadcastToAll cloud event w
      = (Some (Fulfilled
                 (Serverless.originResponse cloud 400
                    (JObject [ ("message", JString "Missing request body") ]))), w))
  /\ (forall text e,
         tableSet = true ->
         event_body event = Some text -> text <> EmptyString ->
         JSON_parse cloud text = inl e ->
         Serverless.broadcastToAll cloud event w
         = (Some (Fulfilled
                    (Serverless.originResponse cloud 500
                       (JObject [ ("message", JString "Broadcast failed");
                                  ("error", JString (messageOf e)) ]))), w)).
Proof.
  intros tableSet configurationError. unfold tableSet.
  split; [|split].
  - intros Ht. split.
    + unfold Serverless.broadcastToAll. now rewrite Ht.
    + intros Hid.
      unfold Serverless.Connect.handler, Serverless.Disconnect.handler.
      rewrite Hid, Ht. split; reflexivity.
  - intros Ht Hbody. unfold Serverless.broadcastToAll. rewrite Ht. cbn [negb].
    unfold try_catch. now rewrite Hbody.
  - intros text e Ht Hbody Hne Hparse.
    unfold Serverless.broadcastToAll. rewrite Ht. cbn [negb].
    unfold try_catch. rewrite Hbody. cbn [truthyString orElse].
    apply String.eqb_neq in Hne. rewrite Hne. cbn [negb].
    unfold parse. rewrite Hparse. reflexivity.
Qed.

Lemma serverless_requests_turned_away_witness :
  Serverless.broadcastToAll Scenario.unconfigured
    (Scenario.post (Scenario.render Scenario.testRequest)) (Scenario.worldOf ["c1"])
  = (Some (Fulfilled
             (Serverless.originResponse Scenario.unconfigured 500
                (JObject [ ("message", JString "Server configuration error") ]))),
     Scenario.worldOf ["c1"])
  /\ Serverless.broadcastToAll Scenario.healthy (Scenario.post "not json")
       (Scenario.worldOf ["c1"])
     = (Some (Fulfilled
                (Serverless.originResponse Scenario.healthy 500
                   (JObject [ ("message", JString "Broadcast failed");
                              ("error", JString "Unexpected token in JSON") ]))),
        Scenario.worldOf ["c1"]).
Proof.
  split.
  - destruct (serverless_requests_turned_away Scenario.unconfigured
                (Scenario.post (Scenario.render Scenario.testRequest))
                (Scenario.worldOf ["c1"]))
      as (H & _).
    destruct H as (H & _); [reflexivity|exact H].
  - destruct (serverless_requests_turned_away Scenario.healthy
                (Scenario.post "not json") (Scenario.worldOf ["c1"]))
      as (_ & _ & H).
    apply (H "not json" Scenario.syntaxError);
      [reflexivity|reflexivity|discriminate|reflexivity].
Defined.
